(** * flipper: DNS record flipper (flipper.py)

    A shallow embedding of [flipper.py]: the configuration parser
    [parse_flip_config], the record locator [search_records], the flip
    executor [flip_record] and the control flow of [main], followed by the
    properties of the orchestration core.

    Conventions of the embedding.
    - Text is ASCII: a Python [str] is a [string], one character per byte.
    - A Python [dict] is an insertion-ordered association list ([Dict]).
    - The NS1 client is an interface ([Provider]); all the code knows of it
      are [searchZone], [loadRecord] and [update], each of which may raise.
    - Effects are threaded through a state-and-exception monad [M] over a
      [world]: the provider's state, the lines printed so far, the provider
      calls made so far, and the [defaultdict] bound to [flip_config]. *)

From Stdlib Require Import String Ascii List Bool Arith Lia.
Import ListNotations.
Local Open Scope list_scope.
Local Open Scope string_scope.
Local Open Scope nat_scope.

Set Implicit Arguments.

(* ================================================================== *)
(** ** Python string primitives *)

Module PyStr.

(** [str.isspace] on one ASCII character: TAB, LF, VT, FF, CR, the four
    separators 0x1c-0x1f and the space. *)
Definition is_space (c : ascii) : bool :=
  let n := nat_of_ascii c in
  ((9 <=? n) && (n <=? 13)) || ((28 <=? n) && (n <=? 32)).

(** [s.startswith(p)] *)
Definition startswith (s p : string) : bool := String.prefix p s.

(** [s.endswith(suf)]: some tail of [s] is [suf]. *)
Fixpoint endswith (s suf : string) : bool :=
  if String.eqb s suf then true
  else match s with
       | EmptyString => false
       | String _ s' => endswith s' suf
       end.

(** [s.lstrip()] *)
Fixpoint lstrip (s : string) : string :=
  match s with
  | EmptyString => EmptyString
  | String c s' => if is_space c then lstrip s' else s
  end.

(** [s.rstrip()] *)
Fixpoint rstrip (s : string) : string :=
  match s with
  | EmptyString => EmptyString
  | String c s' =>
      let r := rstrip s' in
      if is_space c && String.eqb r EmptyString then EmptyString
      else String c r
  end.

(** [s.strip()] *)
Definition strip (s : string) : string := rstrip (lstrip s).

(** [s[n:]] *)
Fixpoint drop (n : nat) (s : string) : string :=
  match n, s with
  | O, _ => s
  | S _, EmptyString => EmptyString
  | S k, String _ s' => drop k s'
  end.

(** [s[:-1]] *)
Fixpoint drop_last (s : string) : string :=
  match s with
  | EmptyString => EmptyString
  | String c s' =>
      match s' with
      | EmptyString => EmptyString
      | String _ _ => String c (drop_last s')
      end
  end.

(** [s[1:-1]] *)
Definition slice_1_m1 (s : string) : string := drop_last (drop 1 s).

(** [s.split()]: the maximal runs of non-whitespace characters. *)
Fixpoint split_ws (s : string) : list string :=
  match s with
  | EmptyString => []
  | String c s' =>
      if is_space c then split_ws s'
      else match s' with
           | EmptyString => [String c EmptyString]
           | String c' _ =>
               if is_space c' then String c EmptyString :: split_ws s'
               else match split_ws s' with
                    | h :: t => String c h :: t
                    | [] => [String c EmptyString]
                    end
           end
  end.

(** [s.split(sep)] for a non-empty [sep]: scan left to right, cut at every
    occurrence of [sep] and resume after it.  [skip] counts the characters
    of a separator just matched that are still to be passed over. *)
Fixpoint split_from (sep : string) (skip : nat) (s : string) : list string :=
  match s with
  | EmptyString => [EmptyString]
  | String c s' =>
      match skip with
      | S k => split_from sep k s'
      | O =>
          if String.prefix sep s
          then EmptyString :: split_from sep (String.length sep - 1) s'
          else match split_from sep 0 s' with
               | h :: t => String c h :: t
               | [] => [String c EmptyString]
               end
      end
  end.

Definition split (s sep : string) : list string := split_from sep 0 s.

(** [sep.join(l)] *)
Fixpoint join (sep : string) (l : list string) : string :=
  match l with
  | [] => EmptyString
  | [x] => x
  | x :: t => x ++ sep ++ join sep t
  end.

(** *** [repr] of strings, lists of strings and pairs of strings *)

Definition dquote : ascii := ascii_of_nat 34.

Fixpoint contains_char (c : ascii) (s : string) : bool :=
  match s with
  | EmptyString => false
  | String d s' => Ascii.eqb c d || contains_char c s'
  end.

Definition hex_digit (n : nat) : ascii :=
  if n <? 10 then ascii_of_nat (48 + n) else ascii_of_nat (87 + n).

Definition repr_char (quote c : ascii) : string :=
  let n := nat_of_ascii c in
  if Ascii.eqb c quote || Ascii.eqb c "\"%char
  then String "\" (String c EmptyString)
  else if n =? 9 then "\t"
  else if n =? 10 then "\n"
  else if n =? 13 then "\r"
  else if (n <? 32) || (n =? 127)
  then String "\" (String "x" (String (hex_digit (n / 16))
                                  (String (hex_digit (n mod 16)) EmptyString)))
  else String c EmptyString.

Fixpoint repr_body (quote : ascii) (s : string) : string :=
  match s with
  | EmptyString => EmptyString
  | String c s' => repr_char quote c ++ repr_body quote s'
  end.

(** [repr(s)]: single quotes unless [s] has a single quote and no double
    quote. *)
Definition repr (s : string) : string :=
  let quote : ascii :=
    if contains_char "'" s && negb (contains_char dquote s)
    then dquote else "'"%char in
  String quote (repr_body quote s ++ String quote EmptyString).

(** [repr] of a list of strings *)
Definition repr_list (l : list string) : string :=
  "[" ++ join ", " (map repr l) ++ "]".

(** [repr] of a pair of strings *)
Definition repr_pair (a b : string) : string :=
  "(" ++ repr a ++ ", " ++ repr b ++ ")".

End PyStr.

(* ================================================================== *)
(** ** Insertion-ordered dictionaries *)

Module Dict.
Section Dict.
Variables K V : Type.
Variable eqb : K -> K -> bool.

Definition t := list (K * V).

(** [d.get(k)] *)
Fixpoint get (k : K) (d : t) : option V :=
  match d with
  | [] => None
  | (k', v) :: d' => if eqb k k' then Some v else get k d'
  end.

(** [k in d] *)
Definition mem (k : K) (d : t) : bool :=
  match get k d with Some _ => true | None => false end.

(** [d[k] = v]: an existing key keeps its place, a new one goes last. *)
Fixpoint set (k : K) (v : V) (d : t) : t :=
  match d with
  | [] => [(k, v)]
  | (k', v') :: d' =>
      if eqb k k' then (k', v) :: d' else (k', v') :: set k v d'
  end.

Definition keys (d : t) : list K := map fst d.

End Dict.
End Dict.

(* ================================================================== *)
(** ** Exceptions *)

Inductive exn_kind :=
| ValueError | TypeError | KeyError | AttributeError | IndexError
| OSError | SystemExit | ProviderError.

(** An exception: its class and [str(e)]. *)
Record exn := Exn { exn_class : exn_kind; exn_str : string }.

Inductive result (A : Type) :=
| Ok (a : A)
| Raise (e : exn).
Arguments Ok {A} a.
Arguments Raise {A} e.

(** [a, b = l] when [l] does not have two elements. *)
Definition unpack_error (got : nat) : exn :=
  match got with
  | 0 => Exn ValueError "not enough values to unpack (expected 2, got 0)"
  | 1 => Exn ValueError "not enough values to unpack (expected 2, got 1)"
  | _ => Exn ValueError "too many values to unpack (expected 2)"
  end.

(* ================================================================== *)
(** ** The configuration model *)

(** A value stored in a record dictionary: the string of a
    [key: value] line, or the pair [(fqdn, record_type)]. *)
Inductive value :=
| VStr (s : string)
| VPair (a b : string).

(** One record declaration, the dictionary [current_record]. *)
Definition record := Dict.t string value.

(** The model: [defaultdict(list)] from application name (or [None]) to the
    list of its records. *)
Definition config := Dict.t (option string) (list record).

Definition option_string_eqb (a b : option string) : bool :=
  match a, b with
  | None, None => true
  | Some x, Some y => String.eqb x y
  | _, _ => false
  end.

Definition rec_get := Dict.get (V:=value) String.eqb.
Definition rec_mem := Dict.mem (V:=value) String.eqb.
Definition rec_set := Dict.set (V:=value) String.eqb.
Definition cfg_get := Dict.get (V:=list record) option_string_eqb.
Definition cfg_mem := Dict.mem (V:=list record) option_string_eqb.
Definition cfg_set := Dict.set (V:=list record) option_string_eqb.

(** [flip_config[k]] on the [defaultdict(list)]: a missing key is inserted
    with an empty list. *)
Definition dd_getitem (k : option string) (d : config)
  : list record * config :=
  match cfg_get k d with
  | Some v => (v, d)
  | None => ([], cfg_set k [] d)
  end.

(* ================================================================== *)
(** ** parse_flip_config *)

(** The local variables of [parse_flip_config]. *)
Record parser_state := ParserState {
  current_application : option string;
  current_record : record;
  flip_config : config
}.

Definition initial_state : parser_state :=
  ParserState None [] [].

(** The body of the loop [for line in file]. *)
Definition parse_line (st : parser_state) (raw : string)
  : result parser_state :=
  let line := PyStr.strip raw in
  (* Skip empty lines and lines starting with '#' *)
  if String.eqb line EmptyString || PyStr.startswith line "#" then Ok st
  (* Identify applications (lines starting with '[') *)
  else if PyStr.startswith line "[" && PyStr.endswith line "]" then
    Ok (ParserState (Some (PyStr.slice_1_m1 line))
                    (current_record st) (flip_config st))
  (* Parse FQDN and record type *)
  else if PyStr.startswith line "fqdn:" then
    match PyStr.split_ws (PyStr.drop 5 line) with
    | [fqdn; record_type] =>
        Ok (ParserState (current_application st)
              (rec_set "fqdn" (VPair fqdn record_type) (current_record st))
              (flip_config st))
    | l => Raise (unpack_error (List.length l))
    end
  (* Parse primary and secondary values *)
  else
    match PyStr.split line ": " with
    | [key; val] =>
        let rec' := rec_set key (VStr val) (current_record st) in
        (* the record is sealed as soon as it has a 'secondary' key *)
        if rec_mem "secondary" rec' then
          let (lst, cfg1) :=
            dd_getitem (current_application st) (flip_config st) in
          Ok (ParserState (current_application st) []
                (cfg_set (current_application st) (lst ++ [rec']) cfg1))
        else
          Ok (ParserState (current_application st) rec' (flip_config st))
    | l => Raise (unpack_error (List.length l))
    end.

(** The loop over the lines of the file. *)
Fixpoint parse_from (st : parser_state) (lines : list string)
  : result parser_state :=
  match lines with
  | [] => Ok st
  | l :: rest =>
      match parse_line st l with
      | Ok st' => parse_from st' rest
      | Raise e => Raise e
      end
  end.

(** [parse_flip_config] on the lines the open file yields. *)
Definition parse_lines (lines : list string) : result config :=
  match parse_from initial_state lines with
  | Ok st => Ok (flip_config st)
  | Raise e => Raise e
  end.

(** *** The lines of a text file *)

Definition LF : ascii := ascii_of_nat 10.
Definition CR : ascii := ascii_of_nat 13.
Definition nl : string := String LF EmptyString.

(** Universal newlines of text mode: CR LF and a lone CR are read as LF. *)
Fixpoint universal_newlines (s : string) : string :=
  match s with
  | EmptyString => EmptyString
  | String c s' =>
      if Ascii.eqb c CR then
        match s' with
        | String c' _ =>
            if Ascii.eqb c' LF then universal_newlines s'
            else String LF (universal_newlines s')
        | EmptyString => String LF EmptyString
        end
      else String c (universal_newlines s')
  end.

(** Iterating a file: each line with its terminator, the last one possibly
    without. *)
Fixpoint split_lines (s : string) : list string :=
  match s with
  | EmptyString => []
  | String c s' =>
      if Ascii.eqb c LF then String LF EmptyString :: split_lines s'
      else match split_lines s' with
           | h :: t => String c h :: t
           | [] => [String c EmptyString]
           end
  end.

Definition file_lines (text : string) : list string :=
  split_lines (universal_newlines text).

Definition parse_text (text : string) : result config :=
  parse_lines (file_lines text).

(* ================================================================== *)
(** ** The DNS provider *)

(** An answer dictionary, [{"answer": [...]}]. *)
Record answer_entry := Answer { answer : list string }.

(** One dictionary of the list [searchZone] returns, read with [.get]: any
    of the keys may be missing. *)
Record zone_result := ZoneResult {
  r_type : option string;
  r_domain : option string;
  r_zone : option string;
  r_answers : option (list answer_entry)
}.

(** The NS1 client, as far as the code uses it.  [repr_results] is the text
    Python prints for the raw response. *)
Class Provider := {
  provider_state : Type;
  handle : Type;
  searchZone : string -> provider_state ->
               result (list zone_result) * provider_state;
  loadRecord : string -> string -> option string -> provider_state ->
               result handle * provider_state;
  update : handle -> list answer_entry -> provider_state ->
           result unit * provider_state;
  repr_results : list zone_result -> string
}.

(** A tuple [(domain, zone, record_type, record_values)] of
    [search_records]. *)
Definition located := (string * option string * string * list string)%type.

Definition domain_of (r : located) : string :=
  let '(domain, _, _, _) := r in domain.
Definition zone_of (r : located) : option string :=
  let '(_, zone, _, _) := r in zone.

(** [str(x)] of a string or [None] *)
Definition str_opt (o : option string) : string :=
  match o with Some s => s | None => "None" end.

(** [str(x)] of a stored value *)
Definition str_value (v : value) : string :=
  match v with
  | VStr s => s
  | VPair a b => PyStr.repr_pair a b
  end.

(** [record_type in ['A', 'CNAME']] *)
Definition is_a_or_cname (record_type : string) : bool :=
  String.eqb record_type "A" || String.eqb record_type "CNAME".

(** [[answer['answer'][0] for answer in answers]] *)
Fixpoint first_answers (answers : list answer_entry) : result (list string) :=
  match answers with
  | [] => Ok []
  | a :: rest =>
      match answer a with
      | [] => Raise (Exn IndexError "list index out of range")
      | v :: _ =>
          match first_answers rest with
          | Ok vs => Ok (v :: vs)
          | Raise e => Raise e
          end
      end
  end.

(** The body of the loop of [search_records] for one result: the tuple it
    appends, if any. *)
Definition locate_one (fqdn : string) (r : zone_result)
  : result (option located) :=
  match r_type r with
  | None => Ok None
  | Some record_type =>
      if is_a_or_cname record_type then
        match r_domain r with
        | None =>
            Raise (Exn AttributeError
                     "'NoneType' object has no attribute 'endswith'")
        | Some domain =>
            if String.eqb domain fqdn || PyStr.endswith domain ("." ++ fqdn)
            then
              match first_answers (match r_answers r with
                                   | Some l => l | None => [] end) with
              | Ok record_values =>
                  Ok (Some (domain, r_zone r, record_type, record_values))
              | Raise e => Raise e
              end
            else Ok None
        end
      else Ok None
  end.

(** The loop of [search_records]. *)
Fixpoint collect (fqdn : string) (results : list zone_result)
  : result (list located) :=
  match results with
  | [] => Ok []
  | r :: rest =>
      match locate_one fqdn r with
      | Raise e => Raise e
      | Ok hit =>
          match collect fqdn rest with
          | Raise e => Raise e
          | Ok records =>
              Ok (match hit with Some t => t :: records | None => records end)
          end
      end
  end.

(** [[r for r in records if r[0] == fqdn]] *)
Definition exact_matches (fqdn : string) (records : list located)
  : list located :=
  filter (fun r => String.eqb (domain_of r) fqdn) records.

(** [[{"answer": [value]} for value in new_values]] *)
Definition new_answers (new_values : list string) : list answer_entry :=
  map (fun v => Answer [v]) new_values.

(** [fqdn, record_type = record['fqdn']] *)
Definition get_fqdn (r : record) : result (string * string) :=
  match rec_get "fqdn" r with
  | None => Raise (Exn KeyError "'fqdn'")
  | Some (VPair a b) => Ok (a, b)
  | Some (VStr (String c1 (String c2 EmptyString))) =>
      Ok (String c1 EmptyString, String c2 EmptyString)
  | Some (VStr s) => Raise (unpack_error (String.length s))
  end.

(** [record[key]] *)
Definition get_item (key : string) (r : record) : result value :=
  match rec_get key r with
  | Some v => Ok v
  | None => Raise (Exn KeyError (PyStr.repr key))
  end.

(** [new_value.split(',')] *)
Definition split_values (new_value : value) : result (list string) :=
  match new_value with
  | VStr s => Ok (PyStr.split s ",")
  | VPair _ _ =>
      Raise (Exn AttributeError "'tuple' object has no attribute 'split'")
  end.

(* ================================================================== *)
(** ** Command-line arguments *)

Inductive site := primary | secondary.

Definition site_key (s : site) : string :=
  match s with primary => "primary" | secondary => "secondary" end.

(** The namespace [argparse] returns, by subcommand. *)
Inductive args :=
| NoAction
| Check (fqdn : string)
| Flip (fqdn record_type zone : string) (new_values : list string)
| FlipApp (file app : option string) (site_arg : option site)
          (list_flag : bool).

(** Truth value of an optional string argument. *)
Definition truthy (o : option string) : bool :=
  match o with
  | Some s => negb (String.eqb s EmptyString)
  | None => false
  end.

Definition is_some {A} (o : option A) : bool :=
  match o with Some _ => true | None => false end.

(* ================================================================== *)
(** ** Effects *)

Section Flipper.

Context {P : Provider}.

(** The file system: the text of the file at a path, if it can be opened. *)
Variable fs : string -> option string.
(** The help texts [argparse] prints. *)
Variables parser_help flip_app_help : string.

(** A call to the provider. *)
Inductive call :=
| CallSearch (fqdn : string)
| CallLoad (fqdn record_type : string) (zone : option string)
| CallUpdate (h : handle) (answers : list answer_entry).

Record world := World {
  prov : provider_state;        (* the provider *)
  out : list string;            (* what [print] has written, one per call *)
  calls : list call;            (* the provider calls made *)
  model : config                (* the dictionary [flip_config] of [main] *)
}.

Definition M (A : Type) := world -> result A * world.

Definition ret {A} (a : A) : M A := fun w => (Ok a, w).

Definition bind {A B} (m : M A) (k : A -> M B) : M B :=
  fun w =>
    match m w with
    | (Ok a, w') => k a w'
    | (Raise e, w') => (Raise e, w')
    end.

Definition raise {A} (e : exn) : M A := fun w => (Raise e, w).

Definition lift {A} (r : result A) : M A := fun w => (r, w).

Notation "x <- m ;; k" := (bind m (fun x => k))
  (at level 61, m at next level, right associativity).
Notation "m ;;; k" := (bind m (fun _ => k))
  (at level 61, right associativity).

(** [try: body except Exception as e: handler(e)]; [SystemExit] is not an
    [Exception]. *)
Definition try_except {A} (body : M A) (handler : exn -> M A) : M A :=
  fun w =>
    match body w with
    | (Ok a, w') => (Ok a, w')
    | (Raise e, w') =>
        match exn_class e with
        | SystemExit => (Raise e, w')
        | _ => handler e w'
        end
    end.

Definition print (s : string) : M unit :=
  fun w => (Ok tt, World (prov w) (out w ++ [s]) (calls w) (model w)).

Definition log (c : call) : M unit :=
  fun w => (Ok tt, World (prov w) (out w) (calls w ++ [c]) (model w)).

(** Running a provider operation on the provider's state. *)
Definition provider_op {A}
  (op : provider_state -> result A * provider_state) : M A :=
  fun w =>
    let (r, p) := op (prov w) in
    (r, World p (out w) (calls w) (model w)).

Definition api_searchZone (fqdn : string) : M (list zone_result) :=
  log (CallSearch fqdn) ;;; provider_op (searchZone fqdn).

Definition api_loadRecord (fqdn record_type : string) (zone : option string)
  : M handle :=
  log (CallLoad fqdn record_type zone) ;;;
  provider_op (loadRecord fqdn record_type zone).

Definition record_update (h : handle) (answers : list answer_entry) : M unit :=
  log (CallUpdate h answers) ;;; provider_op (update h answers).

(** [flip_config = v] *)
Definition model_assign (v : config) : M unit :=
  fun w => (Ok tt, World (prov w) (out w) (calls w) v).

(** [flip_config.get(k, [])] *)
Definition model_get (k : option string) : M (list record) :=
  fun w => (Ok (match cfg_get k (model w) with Some v => v | None => [] end),
            w).

(** [k in flip_config] *)
Definition model_contains (k : option string) : M bool :=
  fun w => (Ok (cfg_mem k (model w)), w).

(** [flip_config[k]] *)
Definition model_getitem (k : option string) : M (list record) :=
  fun w =>
    let (v, d) := dd_getitem k (model w) in
    (Ok v, World (prov w) (out w) (calls w) d).

(** [flip_config.items()] *)
Definition model_items : M (list (option string * list record)) :=
  fun w => (Ok (model w), w).

(** [for x in l: body(x)] *)
Fixpoint for_each {A} (l : list A) (body : A -> M unit) : M unit :=
  match l with
  | [] => ret tt
  | x :: rest => body x ;;; for_each rest body
  end.

(* ------------------------------------------------------------------ *)
(** ** search_records *)

(** The [except] clause of [search_records]; [raw] is the response when the
    name [result] is bound, that is when the loop was entered. *)
Definition search_failed (fqdn : string) (e : exn)
  (raw : option (list zone_result)) : M (option (list located)) :=
  print ("An error occurred while searching the records for " ++ fqdn
         ++ ": " ++ exn_str e) ;;;
  match raw with
  | Some results => print ("Raw JSON response: " ++ repr_results results)
  | None => ret tt
  end ;;;
  ret None.

Definition search_records (fqdn : string) : M (option (list located)) :=
  fun w =>
    match api_searchZone fqdn w with
    | (Raise e, w1) =>
        match exn_class e with
        | SystemExit => (Raise e, w1)
        | _ => search_failed fqdn e None w1
        end
    | (Ok results, w1) =>
        match collect fqdn results with
        | Ok records => (Ok (Some records), w1)
        | Raise e => search_failed fqdn e (Some results) w1
        end
    end.

(* ------------------------------------------------------------------ *)
(** ** flip_record *)

Definition flip_record (fqdn : string) (zone : option string)
  (record_type : string) (new_values : list string) (action : string)
  : M unit :=
  (* Load the existing record based on the FQDN, record type, and zone *)
  record <- api_loadRecord fqdn record_type zone ;;
  if String.eqb action "replace" then
    record_update record (new_answers new_values)
  else ret tt.

(* ------------------------------------------------------------------ *)
(** ** parse_flip_config *)

(** [open(file_path, 'r')] and the loop over its lines. *)
Definition parse_flip_config (file_path : option string) : M config :=
  match file_path with
  | None =>
      raise (Exn TypeError
               "expected str, bytes or os.PathLike object, not NoneType")
  | Some path =>
      match fs path with
      | None => raise (Exn OSError ("No such file or directory: " ++ path))
      | Some text => lift (parse_text text)
      end
  end.

(* ------------------------------------------------------------------ *)
(** ** main *)

(** [for ... in records] when [records] may be [None]. *)
Definition iterate (records : option (list located)) : M (list located) :=
  match records with
  | Some l => ret l
  | None => raise (Exn TypeError "'NoneType' object is not iterable")
  end.

(** The four lines printed for one matching record; [p1] and [p2] are the
    prefixes of the first and of the following lines. *)
Definition print_located (p1 p2 : string) (r : located) : M unit :=
  let '(domain, zone, record_type, record_values) := r in
  print (p1 ++ "FQDN: " ++ domain) ;;;
  print (p2 ++ "Zone: " ++ str_opt zone) ;;;
  print (p2 ++ "Record Type: " ++ record_type) ;;;
  print (p2 ++ "Record Values: " ++ PyStr.repr_list record_values ++ nl).

(** The [check] action. *)
Definition check_action (fqdn : string) : M unit :=
  records <- search_records fqdn ;;
  records <- iterate records ;;
  let matching_records := exact_matches fqdn records in
  match matching_records with
  | [] => print ("No A or CNAME records found for " ++ fqdn ++ nl)
  | _ => for_each matching_records (print_located "" "")
  end.

(** The body of the loop of [flip_app -list -app name]. *)
Definition list_detail (record : record) : M unit :=
  f <- lift (get_fqdn record) ;;
  let fqdn := fst f in
  print ("FQDN: " ++ fqdn) ;;;
  p <- lift (get_item "primary" record) ;;
  print ("Primary: " ++ str_value p) ;;;
  s <- lift (get_item "secondary" record) ;;
  print ("Secondary: " ++ str_value s) ;;;
  records <- search_records fqdn ;;
  match records with
  | None =>
      print ("An error occurred while searching the records for " ++ fqdn)
  | Some records =>
      let matching_records := exact_matches fqdn records in
      match matching_records with
      | [] =>
          d <- lift (get_item "fqdn" record) ;;
          print ("No A or CNAME records found for " ++ str_value d ++ nl)
      | _ => for_each matching_records (print_located "-- " "   ")
      end
  end.

(** The loop [for record in flip_config[app_name]] of the batch flip, with
    the list [flips_summary] it builds. *)
Fixpoint flip_loop (site_arg : site) (records : list record)
  (flips_summary : list string) : M (list string) :=
  match records with
  | [] => ret flips_summary
  | record :: rest =>
      f <- lift (get_fqdn record) ;;
      let '(fqdn, record_type) := f in
      new_value <- lift (get_item (site_key site_arg) record) ;;
      print ("  Flipping " ++ fqdn ++ " " ++ record_type ++ " to "
             ++ str_value new_value) ;;;
      (* Search for the record to get the proper zone *)
      search_results <- search_records fqdn ;;
      search_results <- iterate search_results ;;
      match exact_matches fqdn search_results with
      | [] =>
          flip_loop site_arg rest
            (flips_summary ++
             [fqdn ++ ": WARNING - No matching records found. Skipping flip."])
      | first :: _ =>
          (* the zone of the first matching record *)
          let zone := zone_of first in
          new_values <- lift (split_values new_value) ;;
          flip_record fqdn zone record_type new_values "replace" ;;;
          flip_loop site_arg rest
            (flips_summary ++
             [fqdn ++ " " ++ record_type ++ " -> " ++ str_value new_value])
      end
  end.

(** The [flip_app] action once the file is parsed and bound to
    [flip_config]. *)
Definition flip_app_action (app : option string) (site_arg : option site)
  (list_flag : bool) : M unit :=
  if list_flag then
    if truthy app then
      let app_name := app in
      app_config <- model_get app_name ;;
      print (nl ++ "Config for " ++ str_opt app_name ++ ":") ;;;
      for_each app_config list_detail
    else
      print "Available applications:" ;;;
      items <- model_items ;;
      for_each items (fun item =>
        print ("  " ++ str_opt (fst item)) ;;;
        for_each (snd item) (fun record =>
          f <- lift (get_fqdn record) ;;
          print ("    FQDN: " ++ fst f)))
  else
    match app, site_arg with
    | Some app_name, Some site_arg =>
        present <- model_contains (Some app_name) ;;
        if (present : bool) then
          print ("Flipping records for application: " ++ app_name
                 ++ " (site: " ++ site_key site_arg ++ ")") ;;;
          records <- model_getitem (Some app_name) ;;
          flips_summary <- flip_loop site_arg records [] ;;
          print (nl ++ "Flip operation summary:") ;;;
          for_each flips_summary (fun summary_line =>
            print ("  " ++ summary_line)) ;;;
          print (nl ++ "Flip operation completed successfully.")
        else
          print (nl ++ "Application '" ++ app_name
                 ++ "' not found in the configuration file.")
    | _, _ =>
        print "Error: -app and -site are required unless -list is specified."
    end.

Definition main (a : args) : M unit :=
  (* flip_app with no other argument *)
  match a with
  | FlipApp file app site_arg list_flag =>
      if negb (truthy file) && negb (truthy app)
         && negb (is_some site_arg) && negb list_flag
      then
        print ("Please provide additional arguments for the flip_app action"
               ++ " or use the -list option.") ;;;
        print flip_app_help ;;;
        raise (Exn SystemExit "1")
      else ret tt
  | _ => ret tt
  end ;;;
  match a with
  | NoAction => print parser_help
  | Flip fqdn record_type zone new_values =>
      try_except
        (flip_record fqdn (Some zone) record_type new_values "replace")
        (fun e =>
           print ("An error occurred while flipping the record for "
                  ++ fqdn ++ ": " ++ exn_str e))
  | Check fqdn => check_action fqdn
  | FlipApp file app site_arg list_flag =>
      flip_config <- parse_flip_config file ;;
      model_assign flip_config ;;;
      flip_app_action app site_arg list_flag
  end.

End Flipper.

(* ================================================================== *)
(** ** An in-memory provider, to run the code on concrete inputs *)

Module Fake.

(** A DNS record held by the provider. *)
Record dns_record := Dns {
  d_domain : string;
  d_zone : string;
  d_type : string;
  d_answers : list answer_entry
}.

(** The provider's state: its records, the names whose search fails and the
    names whose records it refuses to load. *)
Record state := State {
  records : list dns_record;
  search_down : list string;
  locked : list string
}.

Definition mem_string (s : string) (l : list string) : bool :=
  existsb (String.eqb s) l.

Definition to_result (d : dns_record) : zone_result :=
  ZoneResult (Some (d_type d)) (Some (d_domain d)) (Some (d_zone d))
             (Some (d_answers d)).

(** The search returns every record the provider holds. *)
Definition search (fqdn : string) (st : state)
  : result (list zone_result) * state :=
  if mem_string fqdn (search_down st)
  then (Raise (Exn ProviderError "search failed"), st)
  else (Ok (map to_result (records st)), st).

Definition is_record (fqdn record_type : string) (zone : option string)
  (d : dns_record) : bool :=
  String.eqb (d_domain d) fqdn && String.eqb (d_type d) record_type
  && option_string_eqb (Some (d_zone d)) zone.

(** A handle names the record it was loaded for. *)
Definition load (fqdn record_type : string) (zone : option string)
  (st : state) : result (string * string * option string) * state :=
  if mem_string fqdn (locked st)
  then (Raise (Exn ProviderError "record is locked"), st)
  else if existsb (is_record fqdn record_type zone) (records st)
  then (Ok (fqdn, record_type, zone), st)
  else (Raise (Exn ProviderError "record not found"), st).

(** [update] replaces the answers of the record of the handle. *)
Definition store (h : string * string * option string)
  (answers : list answer_entry) (st : state) : result unit * state :=
  let '(fqdn, record_type, zone) := h in
  (Ok tt,
   State (map (fun d =>
                 if is_record fqdn record_type zone d
                 then Dns (d_domain d) (d_zone d) (d_type d) answers
                 else d) (records st))
         (search_down st) (locked st)).

#[local] Instance provider : Provider := {|
  provider_state := state;
  handle := (string * string * option string)%type;
  searchZone := search;
  loadRecord := load;
  update := store;
  repr_results := fun _ => "<raw response>"
|}.

(** No file can be opened unless a test supplies one. *)
Definition one_file (path text : string) : string -> option string :=
  fun p => if String.eqb p path then Some text else None.

(** Running [main] on a file, a provider state and arguments. *)
Definition run (path text : string) (st : state) (a : args) :=
  main (P:=provider) (one_file path text) "usage" "usage: flip_app" a
       (World (P:=provider) st [] [] []).

(** Running the [flip_app] action on a model already parsed. *)
Definition run_flip_app (m : config) (st : state) (app : option string)
  (s : option site) (list_flag : bool) :=
  flip_app_action (P:=provider) app s list_flag
    (World (P:=provider) st [] [] m).

(** Sample data: the provider holds an A record for [app.example.com] and
    a CNAME record for [www.app.example.com], both in zone [example.com]. *)
Definition dns : list dns_record :=
  [Dns "app.example.com" "example.com" "A" [Answer ["0.0.0.0"]];
   Dns "www.app.example.com" "example.com" "CNAME"
       [Answer ["app.example.com"]]].

Definition healthy : state := State dns [] [].
(** The search for [app.example.com] fails. *)
Definition search_outage : state := State dns ["app.example.com"] [].
(** The record of [app.example.com] cannot be loaded. *)
Definition load_refused : state := State dns [] ["app.example.com"].

(** An application with two records the provider holds. *)
Definition web_config : string :=
"[web]
fqdn: app.example.com A
primary: 1.2.3.4,5.6.7.8
secondary: 9.9.9.9
fqdn: www.app.example.com CNAME
primary: app.example.com
secondary: standby.example.net
".

Definition ghost_record : record :=
  [("fqdn", VPair "ghost.example.com" "A");
   ("primary", VStr "1.1.1.1"); ("secondary", VStr "2.2.2.2")].

Definition app_record : record :=
  [("fqdn", VPair "app.example.com" "A");
   ("primary", VStr "1.2.3.4,5.6.7.8"); ("secondary", VStr "9.9.9.9")].

(** An application whose first record the provider does not hold. *)
Definition ghost_model : config :=
  [(Some "web", [ghost_record; app_record])].

Definition flip_web_to (s : site) : args :=
  FlipApp (Some "flips.txt") (Some "web") (Some s) false.

End Fake.

(* ================================================================== *)
(** ** Vocabulary of the properties *)

(** The four kinds of line [parse_line] tells apart, by the tests it makes
    in the order it makes them. *)
Inductive line_kind := Skipped | Header | FqdnLine | KeyValue.

Definition classify (raw : string) : line_kind :=
  let line := PyStr.strip raw in
  if String.eqb line EmptyString || PyStr.startswith line "#" then Skipped
  else if PyStr.startswith line "[" && PyStr.endswith line "]" then Header
  else if PyStr.startswith line "fqdn:" then FqdnLine
  else KeyValue.

(** The application a [[name]] line opens. *)
Definition header_name (raw : string) : option string :=
  match classify raw with
  | Header => Some (PyStr.slice_1_m1 (PyStr.strip raw))
  | _ => None
  end.

Definition is_header (raw : string) : bool :=
  match classify raw with Header => true | _ => false end.

(** The records the model holds for a key; none when the key is absent. *)
Definition records_of (k : option string) (m : config) : list record :=
  match cfg_get k m with Some l => l | None => [] end.

(** A record whose [secondary] key holds a value string. *)
Definition has_secondary (r : record) : Prop :=
  exists v, rec_get "secondary" r = Some (VStr v).

(** The invariant of the loop: the record in progress has no [secondary]
    key, and every record of the model has one. *)
Definition parser_inv (st : parser_state) : Prop :=
  rec_mem "secondary" (current_record st) = false /\
  Forall (fun e => Forall has_secondary (snd e)) (flip_config st).

Definition type_of (r : located) : string :=
  let '(_, _, record_type, _) := r in record_type.

(** The four lines printed for one located record. *)
Definition located_lines (p1 p2 : string) (r : located) : list string :=
  let '(domain, zone, record_type, record_values) := r in
  [p1 ++ "FQDN: " ++ domain;
   p2 ++ "Zone: " ++ str_opt zone;
   p2 ++ "Record Type: " ++ record_type;
   p2 ++ "Record Values: " ++ PyStr.repr_list record_values ++ nl].

(** What [check] prints for the records it reports. *)
Definition check_report (fqdn : string) (reported : list located)
  : list string :=
  match reported with
  | [] => ["No A or CNAME records found for " ++ fqdn ++ nl]
  | _ => flat_map (located_lines "" "") reported
  end.

(** The invocations of the flip executor among the provider calls: each
    starts by loading the record. *)
Definition executor_calls {P : Provider} (cs : list call) : list call :=
  filter (fun c => match c with CallLoad _ _ _ => true | _ => false end) cs.

(** The lines of the summary of a batch flip. *)
Definition skipped_line (fqdn : string) : string :=
  fqdn ++ ": WARNING - No matching records found. Skipping flip.".

Definition applied_line (fqdn record_type new_value : string) : string :=
  fqdn ++ " " ++ record_type ++ " -> " ++ new_value.

Definition flipping_line (fqdn record_type new_value : string) : string :=
  "  Flipping " ++ fqdn ++ " " ++ record_type ++ " to " ++ new_value.

Definition search_error_line (fqdn : string) (e : exn) : string :=
  "An error occurred while searching the records for " ++ fqdn ++ ": "
  ++ exn_str e.

Definition not_iterable : exn :=
  Exn TypeError "'NoneType' object is not iterable".

(** A computation that leaves the dictionary [flip_config] as it found it
    and only adds to the provider calls made. *)
Definition steady {P : Provider} {A} (m : M A) : Prop :=
  forall w,
    model (snd (m w)) = model w /\
    exists more, calls (snd (m w)) = (calls w ++ more)%list.

(* ------------------------------------------------------------------ *)
(** *** Lines and files *)

(** A line the parser skips: blank, or a comment. *)
Definition is_skipped (raw : string) : bool :=
  match classify raw with Skipped => true | _ => false end.

(** A line that seals a record: a [key: value] line whose key is
    [secondary]. *)
Definition seals (raw : string) : bool :=
  match classify raw with
  | KeyValue =>
      match PyStr.split (PyStr.strip raw) ": " with
      | [key; _] => String.eqb key "secondary"
      | _ => false
      end
  | _ => false
  end.

(** The number of records of a model, over all its keys. *)
Fixpoint total_records (m : config) : nat :=
  match m with
  | [] => 0
  | (_, l) :: m' => List.length l + total_records m'
  end.

(** A string of whitespace only. *)
Fixpoint all_space (s : string) : bool :=
  match s with
  | EmptyString => true
  | String c s' => PyStr.is_space c && all_space s'
  end.

(** A word: not empty, no whitespace. *)
Fixpoint no_space (s : string) : bool :=
  match s with
  | EmptyString => true
  | String c s' => negb (PyStr.is_space c) && no_space s'
  end.

Definition word (s : string) : Prop := s <> EmptyString /\ no_space s = true.

(** A value a [key: value] line can carry: not empty, no trailing
    whitespace and no [": "] inside. *)
Definition plain_value (s : string) : Prop :=
  s <> EmptyString /\ PyStr.rstrip s = s /\ PyStr.split s ": " = [s].

(** The format of the module's docstring: a record declaration is three
    lines, an application is its header followed by its declarations. *)
Record declaration := Declaration {
  decl_fqdn : string;
  decl_type : string;
  decl_primary : string;
  decl_secondary : string
}.

Definition render_record (d : declaration) : list string :=
  ["fqdn: " ++ decl_fqdn d ++ " " ++ decl_type d;
   "primary: " ++ decl_primary d;
   "secondary: " ++ decl_secondary d].

Definition render_app (a : string * list declaration) : list string :=
  ("[" ++ fst a ++ "]") :: flat_map render_record (snd a).

Definition render (apps : list (string * list declaration)) : list string :=
  flat_map render_app apps.

(** The record and the model a file in that format describes. *)
Definition to_record (d : declaration) : record :=
  [("fqdn", VPair (decl_fqdn d) (decl_type d));
   ("primary", VStr (decl_primary d));
   ("secondary", VStr (decl_secondary d))].

Definition described (apps : list (string * list declaration)) : config :=
  map (fun a => (Some (fst a), map to_record (snd a))) apps.

Definition well_formed (d : declaration) : Prop :=
  word (decl_fqdn d) /\ word (decl_type d) /\
  plain_value (decl_primary d) /\ plain_value (decl_secondary d).

(** [flip_config[a].append(r)] as a function of the model. *)
Definition cfg_append (a : option string) (r : record) (c : config) : config :=
  cfg_set a (records_of a c ++ [r]) (snd (dd_getitem a c)).

(* ------------------------------------------------------------------ *)
(** *** Provider calls and outcomes *)

Definition is_search {P : Provider} (c : call) : bool :=
  match c with CallSearch _ => true | _ => false end.

(** A computation whose provider calls are searches only: it never loads
    and never updates a record. *)
Definition read_only {P : Provider} {A} (m : M A) : Prop :=
  forall w, exists more,
    calls (snd (m w)) = (calls w ++ more)%list /\
    Forall (fun c => is_search c = true) more.

(** A computation that does not use the provider at all. *)
Definition offline {P : Provider} {A} (m : M A) : Prop :=
  forall w, prov (snd (m w)) = prov w /\ calls (snd (m w)) = calls w.

(** A summary line is the outcome of a declared record: it is the skipped
    line or the applied line of that record's fqdn, type and selected
    value. *)
Definition outcome_of (site_arg : site) (r : record) (line : string) : Prop :=
  exists fqdn record_type v,
    get_fqdn r = Ok (fqdn, record_type) /\
    get_item (site_key site_arg) r = Ok v /\
    (line = skipped_line fqdn \/
     line = applied_line fqdn record_type (str_value v)).

(** An A or CNAME result that makes [search_records] give up: it has no
    domain, or it is at the name or under it and one of its answers is
    empty. *)
Definition malformed_hit (fqdn : string) (zr : zone_result) : Prop :=
  exists t, r_type zr = Some t /\ is_a_or_cname t = true /\
    (r_domain zr = None \/
     exists d answers,
       r_domain zr = Some d /\
       String.eqb d fqdn || PyStr.endswith d ("." ++ fqdn) = true /\
       r_answers zr = Some answers /\ In (Answer []) answers).

(** The name a record declares; empty when it declares none. *)
Definition declared_fqdn (r : record) : string :=
  match get_fqdn r with
  | Ok (fqdn, _) => fqdn
  | Raise _ => EmptyString
  end.

(** A record with the three keys the listing in detail reads. *)
Definition complete (r : record) : Prop :=
  (exists f, get_fqdn r = Ok f) /\
  (exists p, rec_get "primary" r = Some p) /\
  (exists s, rec_get "secondary" r = Some s).


(** A provider none of whose searches ends the process. *)
Definition searches_do_not_exit {P : Provider} : Prop :=
  forall fqdn p e p',
    searchZone fqdn p = (Raise e, p') -> exn_class e <> SystemExit.



(** A record that declares what a declaration says: its [fqdn] key holds
    the declared name and type, its [primary] and [secondary] keys the
    declared values. *)
Definition declares (d : declaration) (r : record) : Prop :=
  rec_get "fqdn" r = Some (VPair (decl_fqdn d) (decl_type d)) /\
  rec_get "primary" r = Some (VStr (decl_primary d)) /\
  rec_get "secondary" r = Some (VStr (decl_secondary d)).

(** The lines of a block of declarations, as the file yields them: three
    lines per declaration, each with its terminator. *)
Definition block_lines (ds : list declaration) : list string :=
  map (fun l => l ++ nl) (flat_map render_record ds).

(** Sample declarations: two for [web], given under two headers, and one
    for [db] between them. *)
Definition web_first : declaration :=
  Declaration "a.example.com" "A" "1.1.1.1" "2.2.2.2".
Definition web_second : declaration :=
  Declaration "b.example.com" "CNAME" "p.example.net" "s.example.net".
Definition db_only : declaration :=
  Declaration "db.example.com" "A" "3.3.3.3" "4.4.4.4".

Definition reopened_model : config :=
  [(Some "web", [to_record web_first; to_record web_second]);
   (Some "db", [to_record db_only])].

(* ================================================================== *)
(** * Properties *)

Unset Implicit Arguments.

(** ** Dictionaries *)

Section DictFacts.
Variables K V : Type.
Variable eqb : K -> K -> bool.
Hypothesis eqb_eq : forall a b, eqb a b = true <-> a = b.

Local Abbreviation get := (Dict.get (V:=V) eqb).
Local Abbreviation set := (Dict.set (V:=V) eqb).
Local Abbreviation mem := (Dict.mem (V:=V) eqb).

Lemma eqb_refl k : eqb k k = true.
Proof. now apply eqb_eq. Qed.

Lemma eqb_neq a b : a <> b -> eqb a b = false.
Proof.
  intros H. destruct (eqb a b) eqn:E; [|reflexivity].
  apply eqb_eq in E. contradiction.
Qed.

Lemma get_set_same k v d : get k (set k v d) = Some v.
Proof.
  induction d as [|[k' v'] d IH]; simpl.
  - now rewrite eqb_refl.
  - destruct (eqb k k') eqn:E; simpl; rewrite E; [reflexivity | exact IH].
Qed.

Lemma get_set_other k k' v d : k <> k' -> get k' (set k v d) = get k' d.
Proof.
  intros Hne. induction d as [|[k0 v0] d IH]; simpl.
  - rewrite eqb_neq; auto.
  - destruct (eqb k k0) eqn:E; simpl.
    + apply eqb_eq in E. subst k0. rewrite eqb_neq; auto.
    + now rewrite IH.
Qed.

Lemma get_some_in k v d : get k d = Some v -> In (k, v) d.
Proof.
  induction d as [|[k' v'] d IH]; simpl; [discriminate|].
  destruct (eqb k k') eqn:E.
  - intros [= ->]. apply eqb_eq in E. subst. now left.
  - intros H. right. auto.
Qed.

Lemma get_none_keys k d : get k d = None -> ~ In k (Dict.keys d).
Proof.
  induction d as [|[k' v'] d IH]; simpl; [tauto|].
  destruct (eqb k k') eqn:E; [discriminate|].
  intros H [Hk|Hk]; [|now apply IH].
  subst k'. rewrite eqb_refl in E. discriminate.
Qed.

Lemma keys_set k v d :
  Dict.keys (set k v d) =
  if mem k d then Dict.keys d else (Dict.keys d ++ [k])%list.
Proof.
  unfold Dict.mem.
  induction d as [|[k' v'] d IH]; simpl; [reflexivity|].
  destruct (eqb k k') eqn:E; simpl; [reflexivity|].
  rewrite IH. now destruct (get k d).
Qed.

Lemma NoDup_keys_set k v d :
  NoDup (Dict.keys d) -> NoDup (Dict.keys (set k v d)).
Proof.
  intros H. rewrite keys_set. unfold Dict.mem.
  destruct (get k d) eqn:E; [exact H|].
  apply get_none_keys in E.
  apply NoDup_rev in H. rewrite <- (rev_involutive (_ ++ _)%list).
  apply NoDup_rev. rewrite rev_app_distr. simpl.
  constructor; [|exact H]. now rewrite <- in_rev.
Qed.

Lemma keys_set_forall (Q : K -> Prop) k v d :
  Q k -> Forall Q (Dict.keys d) -> Forall Q (Dict.keys (set k v d)).
Proof.
  intros Hk Hd. rewrite keys_set. destruct (mem k d); [exact Hd|].
  apply Forall_app. split; [exact Hd | constructor; auto].
Qed.

Lemma in_set_values (Q : V -> Prop) k v d :
  Q v -> Forall (fun e => Q (snd e)) d ->
  Forall (fun e => Q (snd e)) (set k v d).
Proof.
  intros Hv. induction 1 as [|[k' v'] d Hx Hd IH]; simpl.
  - constructor; auto.
  - destruct (eqb k k'); constructor; auto.
Qed.

Lemma get_forall (Q : V -> Prop) k v d :
  Forall (fun e => Q (snd e)) d -> get k d = Some v -> Q v.
Proof.
  intros H Hg. apply get_some_in in Hg.
  rewrite Forall_forall in H. exact (H _ Hg).
Qed.

End DictFacts.

Lemma option_string_eqb_eq a b : option_string_eqb a b = true <-> a = b.
Proof.
  destruct a as [x|], b as [y|]; simpl; try (split; [discriminate|congruence]).
  - rewrite String.eqb_eq. split; congruence.
  - tauto.
Qed.

Lemma cfg_get_set_same k v d : cfg_get k (cfg_set k v d) = Some v.
Proof. apply (get_set_same _ _ _ option_string_eqb_eq). Qed.

Lemma cfg_get_set_other k k' v d :
  k <> k' -> cfg_get k' (cfg_set k v d) = cfg_get k' d.
Proof. apply (get_set_other _ _ _ option_string_eqb_eq). Qed.

Lemma cfg_keys_set_forall (Q : option string -> Prop) k v d :
  Q k -> Forall Q (Dict.keys d) -> Forall Q (Dict.keys (cfg_set k v d)).
Proof. apply keys_set_forall. Qed.

Lemma cfg_NoDup_keys_set k v d :
  NoDup (Dict.keys d) -> NoDup (Dict.keys (cfg_set k v d)).
Proof. apply (NoDup_keys_set _ _ _ option_string_eqb_eq). Qed.

Lemma rec_get_set_same k v d : rec_get k (rec_set k v d) = Some v.
Proof. apply (get_set_same _ _ _ String.eqb_eq). Qed.

Lemma rec_get_set_other k k' v d :
  k <> k' -> rec_get k' (rec_set k v d) = rec_get k' d.
Proof. apply (get_set_other _ _ _ String.eqb_eq). Qed.

Lemma cfg_get_forall (Q : list record -> Prop) k v d :
  Forall (fun e => Q (snd e)) d -> cfg_get k d = Some v -> Q v.
Proof. apply (get_forall _ _ _ option_string_eqb_eq). Qed.

Lemma cfg_set_forall (Q : list record -> Prop) k v d :
  Q v -> Forall (fun e => Q (snd e)) d ->
  Forall (fun e => Q (snd e)) (cfg_set k v d).
Proof. apply in_set_values. Qed.

(** ** The parser *)

Lemma parse_from_app st l1 l2 :
  parse_from st (l1 ++ l2) =
  match parse_from st l1 with
  | Ok st' => parse_from st' l2
  | Raise e => Raise e
  end.
Proof.
  revert st. induction l1 as [|l l1 IH]; intros st; simpl; [reflexivity|].
  destruct (parse_line st l); [apply IH | reflexivity].
Qed.

(** [parse_line] by the kind of the line. *)
Lemma parse_line_classify st raw :
  parse_line st raw =
  match classify raw with
  | Skipped => Ok st
  | Header =>
      Ok (ParserState (header_name raw) (current_record st) (flip_config st))
  | FqdnLine =>
      match PyStr.split_ws (PyStr.drop 5 (PyStr.strip raw)) with
      | [fqdn; record_type] =>
          Ok (ParserState (current_application st)
                (rec_set "fqdn" (VPair fqdn record_type) (current_record st))
                (flip_config st))
      | l => Raise (unpack_error (List.length l))
      end
  | KeyValue =>
      match PyStr.split (PyStr.strip raw) ": " with
      | [key; val] =>
          let rec' := rec_set key (VStr val) (current_record st) in
          if rec_mem "secondary" rec' then
            Ok (ParserState (current_application st) []
                  (cfg_set (current_application st)
                     (records_of (current_application st) (flip_config st)
                      ++ [rec'])
                     (snd (dd_getitem (current_application st)
                             (flip_config st)))))
          else Ok (ParserState (current_application st) rec' (flip_config st))
      | l => Raise (unpack_error (List.length l))
      end
  end.
Proof.
  unfold parse_line, header_name, classify. cbv zeta.
  destruct (_ || _); [reflexivity|].
  destruct (_ && _); [reflexivity|].
  destruct (PyStr.startswith _ "fqdn:"); [reflexivity|].
  destruct (PyStr.split _ _) as [|key [|val [|x l]]]; try reflexivity.
  destruct (rec_mem _ _); [|reflexivity].
  unfold dd_getitem, records_of.
  destruct (cfg_get _ _); reflexivity.
Qed.

(** The model after [flip_config[k].append(r)]. *)
Lemma records_of_append k r m :
  records_of k (cfg_set k (records_of k m ++ [r]) (snd (dd_getitem k m)))
  = (records_of k m ++ [r])%list.
Proof.
  unfold records_of at 1. now rewrite cfg_get_set_same.
Qed.

Lemma records_of_append_other k k' r m :
  k <> k' ->
  cfg_get k' (cfg_set k (records_of k m ++ [r]) (snd (dd_getitem k m)))
  = cfg_get k' m.
Proof.
  intros Hne. rewrite cfg_get_set_other by exact Hne.
  unfold dd_getitem. destruct (cfg_get k m) eqn:E; simpl; [reflexivity|].
  now rewrite cfg_get_set_other.
Qed.

Lemma keys_append (Q : option string -> Prop) k r m :
  Q k -> Forall Q (Dict.keys m) ->
  Forall Q (Dict.keys (cfg_set k (records_of k m ++ [r])
                         (snd (dd_getitem k m)))).
Proof.
  intros Hk Hm. apply cfg_keys_set_forall; [exact Hk|].
  unfold dd_getitem. destruct (cfg_get k m); simpl; [exact Hm|].
  now apply cfg_keys_set_forall.
Qed.

Lemma NoDup_keys_append k r m :
  NoDup (Dict.keys m) ->
  NoDup (Dict.keys (cfg_set k (records_of k m ++ [r])
                      (snd (dd_getitem k m)))).
Proof.
  intros Hm. apply cfg_NoDup_keys_set.
  unfold dd_getitem. destruct (cfg_get k m); simpl; [exact Hm|].
  now apply cfg_NoDup_keys_set.
Qed.

(** A line other than a header leaves the current application alone. *)
Lemma parse_line_application st raw st' :
  is_header raw = false ->
  parse_line st raw = Ok st' ->
  current_application st' = current_application st.
Proof.
  unfold is_header. rewrite parse_line_classify.
  destruct (classify raw); try discriminate; intros _.
  - now intros [= <-].
  - destruct (PyStr.split_ws _) as [|a [|b [|c l]]]; try discriminate.
    now intros [= <-].
  - destruct (PyStr.split _ _) as [|a [|b [|c l]]]; try discriminate.
    cbv zeta. destruct (rec_mem _ _); now intros [= <-].
Qed.

(** The keys of the model are application names seen so far. *)
Lemma parse_line_keys (Q : option string -> Prop) st raw st' :
  Q (current_application st) ->
  Forall Q (Dict.keys (flip_config st)) ->
  parse_line st raw = Ok st' ->
  Forall Q (Dict.keys (flip_config st')).
Proof.
  intros Ha Hk. rewrite parse_line_classify.
  destruct (classify raw).
  - now intros [= <-].
  - now intros [= <-].
  - destruct (PyStr.split_ws _) as [|a [|b [|c l]]]; try discriminate.
    now intros [= <-].
  - destruct (PyStr.split _ _) as [|a [|b [|c l]]]; try discriminate.
    cbv zeta. destruct (rec_mem _ _); intros [= <-]; simpl; [|exact Hk].
    now apply keys_append.
Qed.

Lemma parse_line_NoDup st raw st' :
  NoDup (Dict.keys (flip_config st)) ->
  parse_line st raw = Ok st' ->
  NoDup (Dict.keys (flip_config st')).
Proof.
  intros Hk. rewrite parse_line_classify.
  destruct (classify raw).
  - now intros [= <-].
  - now intros [= <-].
  - destruct (PyStr.split_ws _) as [|a [|b [|c l]]]; try discriminate.
    now intros [= <-].
  - destruct (PyStr.split _ _) as [|a [|b [|c l]]]; try discriminate.
    cbv zeta. destruct (rec_mem _ _); intros [= <-]; simpl; [|exact Hk].
    now apply NoDup_keys_append.
Qed.

Lemma parse_from_NoDup lines : forall st st',
  NoDup (Dict.keys (flip_config st)) ->
  parse_from st lines = Ok st' ->
  NoDup (Dict.keys (flip_config st')).
Proof.
  induction lines as [|l lines IH]; simpl; intros st st' Hk.
  - now intros [= <-].
  - destruct (parse_line st l) as [st1|e] eqn:E; [|discriminate].
    apply IH. eapply parse_line_NoDup; eauto.
Qed.

(** Before any header, the current application is [None] and so is every
    key of the model. *)
Lemma parse_from_no_header lines : forall st st',
  Forall (fun l => is_header l = false) lines ->
  current_application st = None ->
  Forall (fun k => k = None) (Dict.keys (flip_config st)) ->
  parse_from st lines = Ok st' ->
  current_application st' = None /\
  Forall (fun k => k = None) (Dict.keys (flip_config st')).
Proof.
  induction lines as [|l lines IH]; simpl; intros st st' Hh Ha Hk.
  - intros [= <-]. auto.
  - inversion Hh as [|? ? Hl Hrest]; subst.
    destruct (parse_line st l) as [st1|e] eqn:E; [|discriminate].
    apply IH; auto.
    + rewrite (parse_line_application _ _ _ Hl E). exact Ha.
    + eapply parse_line_keys; eauto.
Qed.

Lemma unpack_error_class n : exn_class (unpack_error n) = ValueError.
Proof. destruct n as [|[|n]]; reflexivity. Qed.

(** *** Lines with an unrecognised key *)

(** C1, counterexample.  The line [foo: bar] inside a record block does not
    make the parse fail: the file is parsed, and the key [foo] is stored in
    the record with the value [bar]. *)
Lemma unknown_key_is_stored :
  parse_text "[app]
fqdn: app.example.com A
foo: bar
primary: 1.1.1.1
secondary: 2.2.2.2
" = Ok [(Some "app",
         [[("fqdn", VPair "app.example.com" "A"); ("foo", VStr "bar");
           ("primary", VStr "1.1.1.1"); ("secondary", VStr "2.2.2.2")]])].
Proof. vm_compute. reflexivity. Qed.

(** C1, amended.  A line that is neither blank, a comment, a [[name]] header
    nor an [fqdn:] line is split at [": "].  The parse fails (with the
    [ValueError] of the unpacking) when that does not give exactly two
    parts; when it does, the line is accepted whatever its key: the value is
    stored under that key in the record in progress, which is then kept as
    the record in progress or sealed into the current application's list. *)
Theorem key_value_line_outcome pre raw post st :
  parse_from initial_state pre = Ok st ->
  classify raw = KeyValue ->
  (List.length (PyStr.split (PyStr.strip raw) ": ") <> 2 ->
   exists e, parse_lines (pre ++ raw :: post) = Raise e /\
             exn_class e = ValueError) /\
  (forall key val,
     PyStr.split (PyStr.strip raw) ": " = [key; val] ->
     exists st',
       parse_from initial_state (pre ++ [raw]) = Ok st' /\
       rec_get key (rec_set key (VStr val) (current_record st))
       = Some (VStr val) /\
       (current_record st' = rec_set key (VStr val) (current_record st) \/
        (current_record st' = [] /\
         exists lst,
           cfg_get (current_application st) (flip_config st')
           = Some (lst ++ [rec_set key (VStr val) (current_record st)])%list))).
Proof.
  intros Hpre Hkind. split.
  - intros Hlen. unfold parse_lines.
    rewrite parse_from_app, Hpre. simpl.
    rewrite parse_line_classify, Hkind.
    destruct (PyStr.split _ _) as [|a [|b [|c l]]];
      try (eexists; split; [reflexivity | apply unpack_error_class]).
    simpl in Hlen. congruence.
  - intros key val Hsplit.
    rewrite parse_from_app, Hpre. simpl.
    rewrite parse_line_classify, Hkind, Hsplit. cbv zeta.
    destruct (rec_mem _ _); eexists; (split; [reflexivity|]);
      (split; [apply rec_get_set_same|]); simpl.
    + right. split; [reflexivity|]. eexists. apply cfg_get_set_same.
    + left. reflexivity.
Qed.

(** The theorem at the file of the counterexample: the line [foo: bar] after
    [[app]] and an [fqdn:] line. *)
Lemma key_value_line_outcome_witness :
  exists st',
    parse_from initial_state
      (["[app]"; "fqdn: app.example.com A"] ++ ["foo: bar"]) = Ok st' /\
    rec_get "foo" (rec_set "foo" (VStr "bar")
                     [("fqdn", VPair "app.example.com" "A")])
    = Some (VStr "bar").
Proof.
  destruct (key_value_line_outcome
              ["[app]"; "fqdn: app.example.com A"] "foo: bar"
              ["primary: 1.1.1.1"; "secondary: 2.2.2.2"]
              (ParserState (Some "app")
                 [("fqdn", VPair "app.example.com" "A")] [])
              eq_refl eq_refl) as [_ H].
  destruct (H "foo" "bar" eq_refl) as [st' [H1 [H2 _]]].
  exists st'. split; [exact H1 | exact H2].
Defined.

(** *** Sealed records *)

(** A record is sealed when its [secondary] key holds a value string. *)
Lemma sealed_by_secondary key val cur :
  rec_mem "secondary" cur = false ->
  rec_mem "secondary" (rec_set key (VStr val) cur) = true ->
  key = "secondary" /\
  rec_get "secondary" (rec_set key (VStr val) cur) = Some (VStr val).
Proof.
  intros Hcur Hnew.
  destruct (string_dec key "secondary") as [->|Hne].
  - split; [reflexivity | apply rec_get_set_same].
  - exfalso. unfold rec_mem, Dict.mem in *.
    fold rec_get in *. fold rec_set in *.
    rewrite rec_get_set_other in Hnew by exact Hne.
    rewrite Hnew in Hcur. discriminate.
Qed.

Lemma records_of_inv k m :
  Forall (fun e => Forall has_secondary (snd e)) m ->
  Forall has_secondary (records_of k m).
Proof.
  intros H. unfold records_of. destruct (cfg_get k m) eqn:E; [|constructor].
  exact (cfg_get_forall (fun l => Forall has_secondary l) _ _ _ H E).
Qed.

Lemma parse_line_inv st raw st' :
  parser_inv st -> parse_line st raw = Ok st' -> parser_inv st'.
Proof.
  intros [Hrec Hcfg]. rewrite parse_line_classify.
  destruct (classify raw).
  - intros [= <-]. now split.
  - intros [= <-]. now split.
  - destruct (PyStr.split_ws _) as [|a [|b [|c l]]]; try discriminate.
    intros [= <-]. split; [|exact Hcfg]. simpl.
    unfold rec_mem, Dict.mem in *. fold rec_get in *. fold rec_set in *.
    rewrite rec_get_set_other by discriminate. exact Hrec.
  - destruct (PyStr.split _ _) as [|key [|val [|c l]]]; try discriminate.
    cbv zeta. destruct (rec_mem "secondary" (rec_set _ _ _)) eqn:E;
      intros [= <-]; split; simpl; auto.
    destruct (sealed_by_secondary _ _ _ Hrec E) as [_ Hs].
    apply (cfg_set_forall (fun l => Forall has_secondary l)).
    + apply Forall_app. split; [now apply records_of_inv|].
      constructor; [|constructor]. eexists. exact Hs.
    + unfold dd_getitem. destruct (cfg_get _ _); simpl; [exact Hcfg|].
      apply (cfg_set_forall (fun l => Forall has_secondary l)); auto.
Qed.

Lemma parse_from_inv lines : forall st st',
  parser_inv st -> parse_from st lines = Ok st' -> parser_inv st'.
Proof.
  induction lines as [|l lines IH]; simpl; intros st st' Hinv.
  - now intros [= <-].
  - destruct (parse_line st l) as [st1|e] eqn:E; [|discriminate].
    apply IH. eapply parse_line_inv; eauto.
Qed.




(** *** Records before any header *)

(** C5, counterexample.  A record block before any [[name]] line does not
    make the parse fail: the record is attached to the key [None]. *)
Lemma record_before_any_header :
  parse_text "fqdn: app.example.com A
primary: 1.1.1.1
secondary: 2.2.2.2
" = Ok [(None,
         [[("fqdn", VPair "app.example.com" "A");
           ("primary", VStr "1.1.1.1"); ("secondary", VStr "2.2.2.2")]])].
Proof. vm_compute. reflexivity. Qed.

(** C5, amended.  Record lines before any [[name]] line do not make the
    parse fail on that account: the current application is then [None], and
    a [secondary:] line seals the record in progress into the list of the key
    [None], the only key of the model; the record is not discarded. *)
Theorem record_before_header_kept pre raw val st :
  Forall (fun l => is_header l = false) pre ->
  parse_from initial_state pre = Ok st ->
  classify raw = KeyValue ->
  PyStr.split (PyStr.strip raw) ": " = ["secondary"; val] ->
  exists st',
    parse_from initial_state (pre ++ [raw]) = Ok st' /\
    current_application st' = None /\
    records_of None (flip_config st')
    = (records_of None (flip_config st)
       ++ [rec_set "secondary" (VStr val) (current_record st)])%list /\
    Forall (fun k => k = None) (Dict.keys (flip_config st')).
Proof.
  intros Hpre Hst Hkind Hsplit.
  destruct (@parse_from_no_header pre initial_state st Hpre eq_refl
              (Forall_nil _) Hst) as [Happ Hkeys].
  rewrite parse_from_app, Hst. simpl.
  rewrite parse_line_classify, Hkind, Hsplit. cbv zeta.
  assert (Hmem : rec_mem "secondary"
                   (rec_set "secondary" (VStr val) (current_record st))
                 = true).
  { unfold rec_mem, Dict.mem. fold rec_get. fold rec_set.
    now rewrite rec_get_set_same. }
  rewrite Hmem, Happ. eexists. split; [reflexivity|]. simpl.
  split; [reflexivity|]. split.
  - apply records_of_append.
  - now apply keys_append.
Qed.

(** The theorem at the file of the counterexample. *)
Lemma record_before_header_kept_witness :
  exists st',
    parse_from initial_state
      (["fqdn: app.example.com A"; "primary: 1.1.1.1"]
       ++ ["secondary: 2.2.2.2"]) = Ok st' /\
    current_application st' = None /\
    records_of None (flip_config st')
    = [[("fqdn", VPair "app.example.com" "A");
        ("primary", VStr "1.1.1.1"); ("secondary", VStr "2.2.2.2")]] /\
    Forall (fun k => k = None) (Dict.keys (flip_config st')).
Proof.
  apply (@record_before_header_kept
           ["fqdn: app.example.com A"; "primary: 1.1.1.1"]
           "secondary: 2.2.2.2" "2.2.2.2"
           (ParserState None
              [("fqdn", VPair "app.example.com" "A");
               ("primary", VStr "1.1.1.1")] [])).
  - repeat constructor.
  - reflexivity.
  - reflexivity.
  - reflexivity.
Defined.

(** *** Reopening an application *)

Lemma parse_from_app_ok st l1 l2 st' :
  parse_from st (l1 ++ l2) = Ok st' ->
  exists st1, parse_from st l1 = Ok st1 /\ parse_from st1 l2 = Ok st'.
Proof.
  rewrite parse_from_app.
  destruct (parse_from st l1) as [st1|e]; [|discriminate].
  intros H. exists st1. auto.
Qed.

Lemma header_name_some raw a :
  header_name raw = Some a -> classify raw = Header.
Proof. unfold header_name. destruct (classify raw); congruence. Qed.

(** A header line only changes the current application. *)
Lemma parse_line_header st raw a :
  header_name raw = Some a ->
  parse_line st raw
  = Ok (ParserState (Some a) (current_record st) (flip_config st)).
Proof.
  intros H. rewrite parse_line_classify, (header_name_some _ _ H), H.
  reflexivity.
Qed.

(** The lists of the model only grow, at their end. *)
Lemma parse_line_grows st raw st' k :
  parse_line st raw = Ok st' ->
  exists ext,
    records_of k (flip_config st')
    = (records_of k (flip_config st) ++ ext)%list.
Proof.
  rewrite parse_line_classify.
  destruct (classify raw).
  - intros [= <-]. exists []. now rewrite app_nil_r.
  - intros [= <-]. exists []. now rewrite app_nil_r.
  - destruct (PyStr.split_ws _) as [|a [|b [|c l]]]; try discriminate.
    intros [= <-]. exists []. now rewrite app_nil_r.
  - destruct (PyStr.split _ _) as [|key [|val [|c l]]]; try discriminate.
    cbv zeta. destruct (rec_mem _ _); intros [= <-]; simpl.
    + destruct (option_string_eqb (current_application st) k) eqn:E.
      * apply option_string_eqb_eq in E. subst k.
        eexists. apply records_of_append.
      * exists []. rewrite app_nil_r. unfold records_of at 1.
        rewrite records_of_append_other; [reflexivity|].
        intros Heq. apply option_string_eqb_eq in Heq. congruence.
    + exists []. now rewrite app_nil_r.
Qed.

Lemma parse_from_grows lines : forall st st' k,
  parse_from st lines = Ok st' ->
  exists ext,
    records_of k (flip_config st')
    = (records_of k (flip_config st) ++ ext)%list.
Proof.
  induction lines as [|l lines IH]; simpl; intros st st' k.
  - intros [= <-]. exists []. now rewrite app_nil_r.
  - destruct (parse_line st l) as [st1|e] eqn:E; [|discriminate].
    intros H. destruct (parse_line_grows _ _ _ k E) as [e1 H1].
    destruct (IH _ _ k H) as [e2 H2].
    exists (e1 ++ e2)%list. now rewrite H2, H1, app_assoc.
Qed.

Lemma parse_from_cons_ok st l rest st' :
  parse_from st (l :: rest) = Ok st' ->
  exists st1, parse_line st l = Ok st1 /\ parse_from st1 rest = Ok st'.
Proof.
  simpl. destruct (parse_line st l) as [st1|e]; [|discriminate].
  intros H. exists st1. auto.
Qed.

(** The same file read as text: one entry for [web], holding the records of
    both of its blocks in file order. *)
Example reopened_application_example :
  parse_text "[web]
fqdn: a.example.com A
primary: 1.1.1.1
secondary: 2.2.2.2
[db]
fqdn: db.example.com A
primary: 3.3.3.3
secondary: 4.4.4.4
[web]
fqdn: b.example.com CNAME
primary: p.example.net
secondary: s.example.net
" = Ok [(Some "web",
         [[("fqdn", VPair "a.example.com" "A");
           ("primary", VStr "1.1.1.1"); ("secondary", VStr "2.2.2.2")];
          [("fqdn", VPair "b.example.com" "CNAME");
           ("primary", VStr "p.example.net");
           ("secondary", VStr "s.example.net")]]);
        (Some "db",
         [[("fqdn", VPair "db.example.com" "A");
           ("primary", VStr "3.3.3.3"); ("secondary", VStr "4.4.4.4")]])].
Proof. vm_compute. reflexivity. Qed.

(* ================================================================== *)
(** ** The orchestration *)

(** *** Python strings *)

Lemma endswith_spec s suf :
  PyStr.endswith s suf = true <-> exists pre, s = (pre ++ suf)%string.
Proof.
  induction s as [|c s IH].
  - destruct suf as [|d suf]; simpl.
    + split; [exists ""; reflexivity | reflexivity].
    + split; [discriminate|]. intros [pre H].
      destruct pre; discriminate.
  - cbn [PyStr.endswith].
    destruct (String.eqb (String c s) suf) eqn:E.
    + apply String.eqb_eq in E. subst suf.
      split; [exists ""; reflexivity | reflexivity].
    + rewrite IH. split.
      * intros [pre ->]. exists (String c pre). reflexivity.
      * intros [pre H]. destruct pre as [|c' pre]; simpl in H.
        -- subst suf. rewrite String.eqb_refl in E. discriminate.
        -- injection H as _ ->. exists pre. reflexivity.
Qed.

Lemma string_length_app (a b : string) :
  String.length (a ++ b) = String.length a + String.length b.
Proof. induction a; simpl; auto. Qed.

(** A name under [fqdn] is not [fqdn]. *)
Lemma strict_subdomain_differs pre fqdn :
  (pre ++ "." ++ fqdn)%string <> fqdn.
Proof.
  intros H. apply (f_equal String.length) in H.
  rewrite !string_length_app in H. simpl in H. lia.
Qed.

(** *** Running the pieces *)

Section Orchestration.

Context {P : Provider}.
Variable fs : string -> option string.
Variables parser_help flip_app_help : string.

Lemma print_located_run p1 p2 r w :
  print_located p1 p2 r w
  = (Ok tt, World (prov w) (out w ++ located_lines p1 p2 r) (calls w)
                  (model w)).
Proof.
  destruct r as [[[domain zone] record_type] record_values].
  unfold print_located, bind, print. simpl.
  now rewrite <- !app_assoc.
Qed.

Lemma for_each_print_located p1 p2 l : forall w,
  for_each l (print_located p1 p2) w
  = (Ok tt, World (prov w) (out w ++ flat_map (located_lines p1 p2) l)
                  (calls w) (model w)).
Proof.
  induction l as [|r l IH]; intros w.
  - destruct w. simpl. unfold ret. now rewrite app_nil_r.
  - cbn [for_each flat_map]. unfold bind at 1.
    rewrite print_located_run, IH. simpl. now rewrite app_assoc.
Qed.

(** A search the provider answers, and whose results are well formed. *)
Lemma search_records_found fqdn w results p1 records :
  searchZone fqdn (prov w) = (Ok results, p1) ->
  collect fqdn results = Ok records ->
  search_records fqdn w
  = (Ok (Some records),
     World p1 (out w) (calls w ++ [CallSearch fqdn]) (model w)).
Proof.
  intros Hs Hc.
  unfold search_records, api_searchZone, bind, log, provider_op. simpl.
  now rewrite Hs, Hc.
Qed.

(** A search the provider fails: the failure is printed and [None] is
    returned. *)
Lemma search_records_failed fqdn w e p1 :
  searchZone fqdn (prov w) = (Raise e, p1) ->
  exn_class e <> SystemExit ->
  search_records fqdn w
  = (Ok None,
     World p1
       (out w ++ [search_error_line fqdn e])
       (calls w ++ [CallSearch fqdn]) (model w)).
Proof.
  intros Hs He.
  unfold search_records, api_searchZone, bind, log, provider_op. simpl.
  rewrite Hs. destruct (exn_class e); try contradiction; reflexivity.
Qed.

Lemma flip_record_run fqdn zone record_type new_values w h p1 r p2 :
  loadRecord fqdn record_type zone (prov w) = (Ok h, p1) ->
  update h (new_answers new_values) p1 = (r, p2) ->
  flip_record fqdn zone record_type new_values "replace" w
  = (r, World p2 (out w)
          (calls w ++ [CallLoad fqdn record_type zone;
                       CallUpdate h (new_answers new_values)])
          (model w)).
Proof.
  intros Hl Hu.
  unfold flip_record, api_loadRecord, record_update, bind, log, provider_op.
  simpl. rewrite Hl. simpl. rewrite Hu. rewrite <- app_assoc.
  destruct r; reflexivity.
Qed.

Lemma flip_record_not_loaded fqdn zone record_type new_values w e p1 :
  loadRecord fqdn record_type zone (prov w) = (Raise e, p1) ->
  flip_record fqdn zone record_type new_values "replace" w
  = (Raise e, World p1 (out w)
                (calls w ++ [CallLoad fqdn record_type zone]) (model w)).
Proof.
  intros Hl.
  unfold flip_record, api_loadRecord, record_update, bind, log, provider_op.
  simpl. now rewrite Hl.
Qed.

(** *** Computations that do not touch the model *)

Lemma steady_ret {A} (a : A) : steady (ret a).
Proof. intros w. split; [reflexivity|]. exists []. now rewrite app_nil_r. Qed.

Lemma steady_raise {A} e : steady (raise (A:=A) e).
Proof. intros w. split; [reflexivity|]. exists []. now rewrite app_nil_r. Qed.

Lemma steady_lift {A} (r : result A) : steady (lift r).
Proof. intros w. split; [reflexivity|]. exists []. now rewrite app_nil_r. Qed.

Lemma steady_print s : steady (print s).
Proof.
  intros w. split; [reflexivity|]. exists []. simpl. now rewrite app_nil_r.
Qed.

Lemma steady_log c : steady (log c).
Proof. intros w. split; [reflexivity|]. exists [c]. reflexivity. Qed.

Lemma steady_provider_op {A}
      (op : provider_state -> result A * provider_state) :
  steady (provider_op op).
Proof.
  intros w. unfold provider_op. destruct (op (prov w)) as [r p].
  split; [reflexivity|]. exists []. simpl. now rewrite app_nil_r.
Qed.

Lemma steady_bind {A B} (m : M A) (k : A -> M B) :
  steady m -> (forall a, steady (k a)) -> steady (bind m k).
Proof.
  intros Hm Hk w. unfold bind.
  destruct (Hm w) as [Hm1 [more1 Hm2]].
  destruct (m w) as [[a|e] w1]; simpl in *.
  - destruct (Hk a w1) as [Hk1 [more2 Hk2]].
    split; [congruence|]. exists (more1 ++ more2)%list.
    now rewrite Hk2, Hm2, app_assoc.
  - split; [exact Hm1|]. exists more1. exact Hm2.
Qed.

Lemma steady_try_except {A} (body : M A) (handler : exn -> M A) :
  steady body -> (forall e, steady (handler e)) ->
  steady (try_except body handler).
Proof.
  intros Hm Hk w. unfold try_except.
  destruct (Hm w) as [Hm1 [more1 Hm2]].
  destruct (body w) as [[a|e] w1]; simpl in *.
  - split; [exact Hm1|]. exists more1. exact Hm2.
  - destruct (Hk e w1) as [Hk1 [more2 Hk2]].
    destruct (exn_class e); simpl;
      try (split; [congruence|]; exists (more1 ++ more2)%list;
           now rewrite Hk2, Hm2, app_assoc).
    split; [exact Hm1|]. exists more1. exact Hm2.
Qed.

Lemma steady_for_each {A} (l : list A) (body : A -> M unit) :
  (forall x, steady (body x)) -> steady (for_each l body).
Proof.
  intros Hb. induction l as [|x l IH]; simpl.
  - apply steady_ret.
  - apply steady_bind; auto.
Qed.

Lemma steady_model_get k : steady (model_get k).
Proof. intros w. split; [reflexivity|]. exists []. now rewrite app_nil_r. Qed.

Lemma steady_model_contains k : steady (model_contains k).
Proof. intros w. split; [reflexivity|]. exists []. now rewrite app_nil_r. Qed.

Lemma steady_model_items : steady model_items.
Proof. intros w. split; [reflexivity|]. exists []. now rewrite app_nil_r. Qed.

Create HintDb steady.

#[local] Hint Resolve steady_ret steady_raise steady_lift steady_print
  steady_log steady_provider_op steady_model_get steady_model_contains
  steady_model_items : steady.

Ltac steady :=
  repeat first
    [ solve [auto with steady]
    | apply steady_bind; [|intros ?]
    | apply steady_for_each; intros ?
    | apply steady_try_except; [|intros ?]
    | match goal with
      | |- steady (match ?x with _ => _ end) => destruct x
      | |- steady (if ?b then _ else _) => destruct b
      | |- steady (let '(_, _) := ?x in _) => destruct x
      end ].

Lemma steady_search_failed fqdn e raw : steady (search_failed fqdn e raw).
Proof. unfold search_failed. steady. Qed.

Lemma steady_search_records fqdn : steady (search_records fqdn).
Proof.
  intros w. unfold search_records.
  assert (Ha : steady (api_searchZone fqdn))
    by (unfold api_searchZone; steady).
  destruct (Ha w) as [H1 [more1 H2]].
  destruct (api_searchZone fqdn w) as [[results|e] w1]; cbn [snd] in *.
  - destruct (collect fqdn results) as [records|e].
    + split; [exact H1|]. exists more1. exact H2.
    + destruct (steady_search_failed fqdn e (Some results) w1)
        as [H3 [more2 H4]].
      split; [congruence|]. exists (more1 ++ more2)%list.
      now rewrite H4, H2, app_assoc.
  - destruct (steady_search_failed fqdn e None w1) as [H3 [more2 H4]].
    destruct (exn_class e);
      try (split; [congruence|]; exists (more1 ++ more2)%list;
           now rewrite H4, H2, app_assoc).
    split; [exact H1|]. exists more1. exact H2.
Qed.

Lemma steady_flip_record fqdn zone record_type new_values action :
  steady (flip_record fqdn zone record_type new_values action).
Proof.
  unfold flip_record, api_loadRecord, record_update. steady.
Qed.

Lemma steady_print_located p1 p2 r : steady (print_located p1 p2 r).
Proof.
  destruct r as [[[domain zone] record_type] record_values].
  unfold print_located. steady.
Qed.

#[local] Hint Resolve steady_search_records steady_flip_record
  steady_print_located : steady.

Lemma steady_iterate records : steady (iterate records).
Proof. unfold iterate. steady. Qed.

#[local] Hint Resolve steady_iterate : steady.

Lemma steady_check_action fqdn : steady (check_action fqdn).
Proof. unfold check_action. steady. Qed.

Lemma steady_list_detail record : steady (list_detail record).
Proof. unfold list_detail. steady. Qed.

Lemma steady_flip_loop site_arg records : forall flips_summary,
  steady (flip_loop site_arg records flips_summary).
Proof.
  induction records as [|record rest IH]; intros flips_summary;
    cbn [flip_loop].
  - apply steady_ret.
  - steady; apply IH.
Qed.

#[local] Hint Resolve steady_check_action steady_list_detail
  steady_flip_loop : steady.

(** *** One iteration of the batch loop *)

(** No exact match: the record is skipped and the loop goes on. *)
Lemma flip_loop_skips site_arg record rest summary w
      fqdn record_type v results p1 records :
  get_fqdn record = Ok (fqdn, record_type) ->
  get_item (site_key site_arg) record = Ok v ->
  searchZone fqdn (prov w) = (Ok results, p1) ->
  collect fqdn results = Ok records ->
  exact_matches fqdn records = [] ->
  flip_loop site_arg (record :: rest) summary w
  = flip_loop site_arg rest (summary ++ [skipped_line fqdn])
      (World p1
         (out w ++ [flipping_line fqdn record_type (str_value v)])
         (calls w ++ [CallSearch fqdn]) (model w)).
Proof.
  intros Hf Hv Hs Hc Hm.
  cbn [flip_loop]. unfold bind, lift, print, iterate, ret.
  rewrite Hf, Hv.
  erewrite search_records_found by (simpl; eauto).
  rewrite Hm. reflexivity.
Qed.

(** An exact match and a flip the provider accepts: the record is applied
    and the loop goes on. *)
Lemma flip_loop_applies site_arg record rest summary w
      fqdn record_type s results p1 records first others h p2 p3 :
  get_fqdn record = Ok (fqdn, record_type) ->
  get_item (site_key site_arg) record = Ok (VStr s) ->
  searchZone fqdn (prov w) = (Ok results, p1) ->
  collect fqdn results = Ok records ->
  exact_matches fqdn records = first :: others ->
  loadRecord fqdn record_type (zone_of first) p1 = (Ok h, p2) ->
  update h (new_answers (PyStr.split s ",")) p2 = (Ok tt, p3) ->
  flip_loop site_arg (record :: rest) summary w
  = flip_loop site_arg rest (summary ++ [applied_line fqdn record_type s])
      (World p3
         (out w ++ [flipping_line fqdn record_type s])
         (calls w ++ [CallSearch fqdn;
                      CallLoad fqdn record_type (zone_of first);
                      CallUpdate h (new_answers (PyStr.split s ","))])
         (model w)).
Proof.
  intros Hf Hv Hs Hc Hm Hl Hu.
  cbn [flip_loop]. unfold bind, lift, print, iterate, ret.
  rewrite Hf, Hv.
  erewrite search_records_found by (simpl; eauto).
  rewrite Hm. cbn [split_values].
  erewrite flip_record_run by (simpl; eauto).
  cbn [out calls model prov str_value]. rewrite <- app_assoc. reflexivity.
Qed.

(** An exact match and a flip the provider rejects, at the load or at the
    update: the exception leaves the loop. *)
Lemma flip_loop_executor_raises site_arg record rest summary w
      fqdn record_type s results p1 records first others e :
  get_fqdn record = Ok (fqdn, record_type) ->
  get_item (site_key site_arg) record = Ok (VStr s) ->
  searchZone fqdn (prov w) = (Ok results, p1) ->
  collect fqdn results = Ok records ->
  exact_matches fqdn records = first :: others ->
  fst (flip_record fqdn (zone_of first) record_type (PyStr.split s ",")
         "replace"
         (World p1 (out w ++ [flipping_line fqdn record_type s])
            (calls w ++ [CallSearch fqdn]) (model w))) = Raise e ->
  flip_loop site_arg (record :: rest) summary w
  = (Raise e,
     snd (flip_record fqdn (zone_of first) record_type (PyStr.split s ",")
            "replace"
            (World p1 (out w ++ [flipping_line fqdn record_type s])
               (calls w ++ [CallSearch fqdn]) (model w)))).
Proof.
  intros Hf Hv Hs Hc Hm Hr.
  cbn [flip_loop]. unfold bind, lift, print, iterate, ret.
  rewrite Hf, Hv.
  erewrite search_records_found by (simpl; eauto).
  rewrite Hm. cbn [split_values str_value out calls model prov].
  fold (flipping_line fqdn record_type s).
  destruct (flip_record _ _ _ _ _ _) as [r w'].
  simpl in Hr. subst r. reflexivity.
Qed.

(** A search the provider fails: [search_records] returns [None], and the
    comprehension over it raises. *)
Lemma flip_loop_lookup_raises site_arg record rest summary w
      fqdn record_type v e p1 :
  get_fqdn record = Ok (fqdn, record_type) ->
  get_item (site_key site_arg) record = Ok v ->
  searchZone fqdn (prov w) = (Raise e, p1) ->
  exn_class e <> SystemExit ->
  flip_loop site_arg (record :: rest) summary w
  = (Raise not_iterable,
     World p1
       (out w ++ [flipping_line fqdn record_type (str_value v);
                  search_error_line fqdn e])
       (calls w ++ [CallSearch fqdn]) (model w)).
Proof.
  intros Hf Hv Hs He.
  cbn [flip_loop]. unfold bind, lift, print, iterate, ret.
  rewrite Hf, Hv.
  erewrite search_records_failed by (simpl; eauto).
  cbn. unfold raise. rewrite <- app_assoc. reflexivity.
Qed.

(** *** Reading the model *)

(** The subscript of the [defaultdict] does insert a missing key. *)
Lemma dd_getitem_inserts k d :
  cfg_get k d = None ->
  fst (dd_getitem k d) = [] /\ cfg_get k (snd (dd_getitem k d)) = Some [].
Proof.
  intros H. unfold dd_getitem. rewrite H. simpl.
  split; [reflexivity | apply cfg_get_set_same].
Qed.

(** On a key that is present it returns the list and changes nothing. *)
Lemma model_getitem_present k w :
  cfg_mem k (model w) = true ->
  model (snd (model_getitem k w)) = model w /\
  calls (snd (model_getitem k w)) = calls w.
Proof.
  unfold cfg_mem, Dict.mem, model_getitem, dd_getitem. fold cfg_get.
  destruct (cfg_get k (model w)); [|discriminate]. now split.
Qed.

(** C10.  After parsing, nothing the [flip_app] action does changes the
    model: whatever the arguments, the provider and the model, the
    dictionary bound to [flip_config] is the same when the action ends
    (normally or by an exception) as when it began.  In particular a name
    absent from the model, looked up for the listing in detail or for the
    batch flip, is still absent afterwards: no empty entry is inserted. *)
Theorem flip_app_action_preserves_model app site_arg list_flag w :
  model (snd (flip_app_action app site_arg list_flag w)) = model w /\
  (forall name,
     cfg_get name (model w) = None ->
     cfg_get name (model (snd (flip_app_action app site_arg list_flag w)))
     = None).
Proof.
  assert (H : model (snd (flip_app_action app site_arg list_flag w))
              = model w).
  { unfold flip_app_action.
    destruct list_flag.
    - destruct (truthy app).
      + apply (steady_bind (model_get app)); [auto with steady|].
        intros app_config. steady.
      + assert (Hs : steady
                  (bind (print "Available applications:") (fun _ =>
                   bind model_items (fun items =>
                   for_each items (fun item =>
                     bind (print ("  " ++ str_opt (fst item))) (fun _ =>
                     for_each (snd item) (fun record =>
                       bind (lift (get_fqdn record)) (fun f =>
                       print ("    FQDN: " ++ fst f))))))))) by steady.
        apply Hs.
    - destruct app as [app_name|]; [|apply steady_print].
      destruct site_arg as [s|]; [|apply steady_print].
      unfold bind at 1. unfold model_contains at 1.
      destruct (cfg_mem (Some app_name) (model w)) eqn:Hmem;
        [|apply steady_print].
      unfold bind at 1. unfold print at 1.
      unfold bind at 1.
      set (w1 := World (prov w) _ (calls w) (model w)).
      destruct (model_getitem_present (Some app_name) w1 Hmem) as [Hg _].
      destruct (model_getitem (Some app_name) w1) as [[records|e] w2];
        simpl in Hg; [|exact Hg].
      assert (Hs : steady
                (bind (flip_loop s records []) (fun flips_summary =>
                 bind (print (nl ++ "Flip operation summary:")) (fun _ =>
                 bind (for_each flips_summary (fun summary_line =>
                         print ("  " ++ summary_line))) (fun _ =>
                 print (nl ++ "Flip operation completed successfully."))))))
        by steady.
      destruct (Hs w2) as [Hm _]. rewrite <- Hg. exact Hm. }
  split; [exact H|]. intros name Hn. now rewrite H.
Qed.

(** *** The batch flip *)

Lemma for_each_print_lines (prefix : string) l : forall w,
  for_each l (fun summary_line => print (prefix ++ summary_line)) w
  = (Ok tt, World (prov w) (out w ++ map (fun x => prefix ++ x)%string l)
                  (calls w) (model w)).
Proof.
  induction l as [|x l IH]; intros w.
  - destruct w. simpl. unfold ret. now rewrite app_nil_r.
  - cbn [for_each map]. unfold bind at 1. unfold print at 1.
    rewrite IH. simpl. now rewrite <- app_assoc.
Qed.

(** C6.  A batch flip over an application with two declared records, where
    the locator finds no exact match for the first and at least one for the
    second, and the provider accepts the flip of the second: the action
    ends normally; its summary has two lines in declaration order, the
    first record skipped for want of a match, the second applied; and the
    flip executor is invoked exactly once, for the second record, in the
    zone of its first exact match. *)
Theorem batch_skips_then_applies app site_arg w r1 r2
        f1 t1 v1 f2 t2 s2 res1 p1 recs1 res2 p2 recs2 first others
        h p3 p4 :
  cfg_get (Some app) (model w) = Some [r1; r2] ->
  get_fqdn r1 = Ok (f1, t1) ->
  get_item (site_key site_arg) r1 = Ok v1 ->
  get_fqdn r2 = Ok (f2, t2) ->
  get_item (site_key site_arg) r2 = Ok (VStr s2) ->
  searchZone f1 (prov w) = (Ok res1, p1) ->
  collect f1 res1 = Ok recs1 ->
  exact_matches f1 recs1 = [] ->
  searchZone f2 p1 = (Ok res2, p2) ->
  collect f2 res2 = Ok recs2 ->
  exact_matches f2 recs2 = first :: others ->
  loadRecord f2 t2 (zone_of first) p2 = (Ok h, p3) ->
  update h (new_answers (PyStr.split s2 ",")) p3 = (Ok tt, p4) ->
  flip_app_action (Some app) (Some site_arg) false w
  = (Ok tt,
     World p4
       (out w ++
        ["Flipping records for application: " ++ app ++ " (site: "
         ++ site_key site_arg ++ ")";
         flipping_line f1 t1 (str_value v1);
         flipping_line f2 t2 s2;
         nl ++ "Flip operation summary:";
         "  " ++ skipped_line f1;
         "  " ++ applied_line f2 t2 s2;
         nl ++ "Flip operation completed successfully."])
       (calls w ++
        [CallSearch f1; CallSearch f2;
         CallLoad f2 t2 (zone_of first);
         CallUpdate h (new_answers (PyStr.split s2 ","))])
       (model w)) /\
  executor_calls
    [CallSearch f1; CallSearch f2;
     CallLoad f2 t2 (zone_of first);
     CallUpdate h (new_answers (PyStr.split s2 ","))]
  = [CallLoad f2 t2 (zone_of first)].
Proof.
  intros Hcfg Hf1 Hv1 Hf2 Hv2 Hs1 Hc1 Hm1 Hs2 Hc2 Hm2 Hl Hu.
  split; [|reflexivity].
  unfold flip_app_action.
  unfold bind at 1. unfold model_contains at 1.
  unfold cfg_mem, Dict.mem. fold cfg_get. rewrite Hcfg.
  unfold bind at 1. unfold print at 1.
  unfold bind at 1. unfold model_getitem at 1, dd_getitem.
  cbn [model]. rewrite Hcfg.
  unfold bind at 1.
  erewrite flip_loop_skips by (cbn [prov]; eauto).
  erewrite flip_loop_applies by (cbn [prov]; eauto).
  cbn [flip_loop]. unfold ret.
  unfold bind at 1. unfold print at 1.
  unfold bind at 1. rewrite for_each_print_lines.
  unfold print. cbn [prov out calls model map List.app].
  repeat rewrite <- app_assoc. reflexivity.
Qed.

(** *** The answers sent to the provider *)

(** One answer entry per value, in order. *)
Lemma new_answers_entries new_values :
  map answer (new_answers new_values) = map (fun v => [v]) new_values /\
  List.length (new_answers new_values) = List.length new_values.
Proof.
  unfold new_answers. rewrite map_map, length_map. split; reflexivity.
Qed.

(** C9.  When the batch loop flips a record whose selected value is the
    string [s], the flip executor is called with the elements of
    [s.split(',')]: it loads the record in the zone of the first exact
    match and calls [update] with one answer entry per element, in the same
    order, and with nothing else: the answers sent are built from the new
    values alone, whatever answers the record had. *)
Theorem flip_sends_split_values site_arg record rest summary w
        fqdn record_type s results p1 records first others h p2 :
  get_fqdn record = Ok (fqdn, record_type) ->
  get_item (site_key site_arg) record = Ok (VStr s) ->
  searchZone fqdn (prov w) = (Ok results, p1) ->
  collect fqdn results = Ok records ->
  exact_matches fqdn records = first :: others ->
  loadRecord fqdn record_type (zone_of first) p1 = (Ok h, p2) ->
  (exists more,
     calls (snd (flip_loop site_arg (record :: rest) summary w))
     = (calls w ++
        [CallSearch fqdn;
         CallLoad fqdn record_type (zone_of first);
         CallUpdate h (new_answers (PyStr.split s ","))] ++ more)%list) /\
  map answer (new_answers (PyStr.split s ","))
  = map (fun v => [v]) (PyStr.split s ",") /\
  List.length (new_answers (PyStr.split s ","))
  = List.length (PyStr.split s ",").
Proof.
  intros Hf Hv Hs Hc Hm Hl.
  split; [|apply new_answers_entries].
  destruct (update h (new_answers (PyStr.split s ",")) p2) as [r p3] eqn:Hu.
  destruct r as [[]|e].
  - erewrite flip_loop_applies by eauto.
    match goal with
    | |- context [flip_loop site_arg rest ?sm ?w1] =>
        destruct (steady_flip_loop site_arg rest sm w1) as [_ [more Hmore]]
    end.
    exists more. rewrite Hmore. cbn [calls]. now rewrite <- app_assoc.
  - assert (Hr : flip_record fqdn (zone_of first) record_type
                   (PyStr.split s ",") "replace"
                   (World p1 (out w ++ [flipping_line fqdn record_type s])
                      (calls w ++ [CallSearch fqdn]) (model w))
                 = (Raise e,
                    World p3 (out w ++ [flipping_line fqdn record_type s])
                      ((calls w ++ [CallSearch fqdn]) ++
                       [CallLoad fqdn record_type (zone_of first);
                        CallUpdate h (new_answers (PyStr.split s ","))])
                      (model w))).
    { erewrite flip_record_run by (cbn [prov]; eauto). reflexivity. }
    erewrite flip_loop_executor_raises by (eauto; rewrite Hr; reflexivity).
    rewrite Hr. cbn [snd calls]. exists [].
    now rewrite <- app_assoc, app_nil_r.
Qed.

(** *** check *)

Lemma first_answers_total_ok (zr : zone_result) fqdn t d :
  r_type zr = Some t -> is_a_or_cname t = true -> r_domain zr = Some d ->
  String.eqb d fqdn || PyStr.endswith d ("." ++ fqdn) = true ->
  forall hit, locate_one fqdn zr = Ok hit ->
  exists vs, hit = Some (d, r_zone zr, t, vs).
Proof.
  intros Ht Ha Hd Hin hit. unfold locate_one.
  rewrite Ht, Ha, Hd, Hin.
  destruct (first_answers _) as [vs|e]; [|discriminate].
  intros [= <-]. exists vs. reflexivity.
Qed.

Lemma locate_one_hit fqdn zr r :
  locate_one fqdn zr = Ok (Some r) ->
  is_a_or_cname (type_of r) = true /\
  (domain_of r = fqdn \/
   exists pre, domain_of r = (pre ++ "." ++ fqdn)%string).
Proof.
  unfold locate_one.
  destruct (r_type zr) as [t|]; [|discriminate].
  destruct (is_a_or_cname t) eqn:Ha; [|discriminate].
  destruct (r_domain zr) as [d|]; [|discriminate].
  destruct (String.eqb d fqdn) eqn:He; cbn [orb].
  - destruct (first_answers _); [|discriminate].
    intros [= <-]. simpl. split; [exact Ha|]. left.
    now apply String.eqb_eq.
  - destruct (PyStr.endswith d ("." ++ fqdn)) eqn:Hs; [|discriminate].
    destruct (first_answers _); [|discriminate].
    intros [= <-]. simpl. split; [exact Ha|]. right.
    apply endswith_spec in Hs. exact Hs.
Qed.

(** The locator keeps the A and CNAME results at the name or under it. *)
Lemma collect_sound fqdn results : forall records r,
  collect fqdn results = Ok records -> In r records ->
  is_a_or_cname (type_of r) = true /\
  (domain_of r = fqdn \/
   exists pre, domain_of r = (pre ++ "." ++ fqdn)%string).
Proof.
  induction results as [|zr results IH]; simpl; intros records r.
  - intros [= <-] [].
  - destruct (locate_one fqdn zr) as [hit|e] eqn:E; [|discriminate].
    destruct (collect fqdn results) as [records'|e]; [|discriminate].
    intros [= <-]. destruct hit as [t|].
    + intros [<-|Hin]; [exact (locate_one_hit _ _ _ E) | eauto].
    + eauto.
Qed.

Lemma collect_complete fqdn results : forall records zr t d,
  collect fqdn results = Ok records -> In zr results ->
  r_type zr = Some t -> is_a_or_cname t = true -> r_domain zr = Some d ->
  (d = fqdn \/ exists pre, d = (pre ++ "." ++ fqdn)%string) ->
  exists vs, In (d, r_zone zr, t, vs) records.
Proof.
  induction results as [|zr0 results IH]; simpl; intros records zr t d.
  - intros _ [].
  - destruct (locate_one fqdn zr0) as [hit|e] eqn:E; [|discriminate].
    destruct (collect fqdn results) as [records'|e]; [|discriminate].
    intros [= <-] [->|Hin] Ht Ha Hd Hdom.
    + assert (Hb : String.eqb d fqdn || PyStr.endswith d ("." ++ fqdn)
                   = true).
      { destruct Hdom as [->|Hpre].
        - now rewrite String.eqb_refl.
        - apply endswith_spec in Hpre.
          destruct (String.eqb d fqdn); [reflexivity | exact Hpre]. }
      destruct (first_answers_total_ok zr fqdn t d Ht Ha Hd Hb hit E)
        as [vs ->].
      exists vs. now left.
    + destruct (IH records' zr t d eq_refl Hin Ht Ha Hd Hdom) as [vs Hvs].
      exists vs. destruct hit; [right|]; exact Hvs.
Qed.

(** C7.  When the search succeeds, the locator returns the A and CNAME
    records whose domain is the fqdn or ends with a dot followed by the
    fqdn, and [check] reports, of those, the ones whose domain is the fqdn
    exactly: a record at a strict subdomain is located but not reported. *)
Theorem check_reports_exact_matches_only fqdn w results p1 records :
  searchZone fqdn (prov w) = (Ok results, p1) ->
  collect fqdn results = Ok records ->
  (forall r, In r records ->
     is_a_or_cname (type_of r) = true /\
     (domain_of r = fqdn \/
      exists pre, domain_of r = (pre ++ "." ++ fqdn)%string)) /\
  (forall zr t d,
     In zr results -> r_type zr = Some t -> is_a_or_cname t = true ->
     r_domain zr = Some d ->
     (d = fqdn \/ exists pre, d = (pre ++ "." ++ fqdn)%string) ->
     exists vs, In (d, r_zone zr, t, vs) records) /\
  main fs parser_help flip_app_help (Check fqdn) w
  = (Ok tt,
     World p1 (out w ++ check_report fqdn (exact_matches fqdn records))
       (calls w ++ [CallSearch fqdn]) (model w)) /\
  (forall r, In r (exact_matches fqdn records) <->
             In r records /\ domain_of r = fqdn) /\
  (forall r pre, In r records ->
     domain_of r = (pre ++ "." ++ fqdn)%string ->
     ~ In r (exact_matches fqdn records)).
Proof.
  intros Hs Hc.
  assert (Hexact : forall r, In r (exact_matches fqdn records) <->
                             In r records /\ domain_of r = fqdn).
  { intros r. unfold exact_matches. rewrite filter_In.
    now rewrite String.eqb_eq. }
  split; [intros r; apply (collect_sound fqdn results records r Hc)|].
  split; [intros zr t d; apply (collect_complete fqdn results records zr t d
                                  Hc)|].
  split; [|split; [exact Hexact|]].
  - unfold main, check_action. unfold bind at 1. unfold ret at 1.
    unfold bind at 1.
    rewrite (search_records_found fqdn w results p1 records Hs Hc).
    unfold bind at 1. unfold iterate, ret.
    unfold check_report.
    destruct (exact_matches fqdn records) as [|r l] eqn:Hm.
    + reflexivity.
    + rewrite for_each_print_located. reflexivity.
  - intros r pre Hin Hd Hr. apply Hexact in Hr. destruct Hr as [_ Hr].
    rewrite Hd in Hr. exact (strict_subdomain_differs pre fqdn Hr).
Qed.

End Orchestration.

(* ================================================================== *)
(** ** The code on concrete inputs *)

(** The values of the round trip: two elements, in order. *)
Example split_two_values :
  PyStr.split "1.2.3.4,5.6.7.8" "," = ["1.2.3.4"; "5.6.7.8"] /\
  new_answers (PyStr.split "1.2.3.4,5.6.7.8" ",")
  = [Answer ["1.2.3.4"]; Answer ["5.6.7.8"]].
Proof. split; reflexivity. Qed.

(** With the in-memory provider, the flip replaces the answers of the
    record: the earlier answer is gone. *)
Example flip_replaces_answers :
  map Fake.d_answers
    (Fake.records
       (prov (snd (Fake.run "flips.txt" Fake.web_config Fake.healthy
                     (Fake.flip_web_to primary)))))
  = [[Answer ["1.2.3.4"]; Answer ["5.6.7.8"]]; [Answer ["app.example.com"]]].
Proof. vm_compute. reflexivity. Qed.

(** C6, witness: the theorem at the model whose first record has no match:
    the summary has the skipped line, then the applied line. *)
Lemma batch_skips_then_applies_witness :
  fst (Fake.run_flip_app Fake.ghost_model Fake.healthy
         (Some "web") (Some primary) false) = Ok tt /\
  calls (snd (Fake.run_flip_app Fake.ghost_model Fake.healthy
                (Some "web") (Some primary) false))
  = [CallSearch "ghost.example.com"; CallSearch "app.example.com";
     CallLoad "app.example.com" "A" (Some "example.com");
     CallUpdate (P:=Fake.provider)
       ("app.example.com", "A", Some "example.com")
       [Answer ["1.2.3.4"]; Answer ["5.6.7.8"]]].
Proof.
  pose proof
    (@batch_skips_then_applies Fake.provider "web" primary
       (World (P:=Fake.provider) Fake.healthy [] [] Fake.ghost_model)
       Fake.ghost_record Fake.app_record
       "ghost.example.com" "A" (VStr "1.1.1.1")
       "app.example.com" "A" "1.2.3.4,5.6.7.8"
       (map Fake.to_result Fake.dns) Fake.healthy []
       (map Fake.to_result Fake.dns) Fake.healthy
       [("app.example.com", Some "example.com", "A", ["0.0.0.0"]);
        ("www.app.example.com", Some "example.com", "CNAME",
         ["app.example.com"])]
       ("app.example.com", Some "example.com", "A", ["0.0.0.0"]) []
       ("app.example.com", "A", Some "example.com")
       Fake.healthy
       (Fake.State
          [Fake.Dns "app.example.com" "example.com" "A"
             [Answer ["1.2.3.4"]; Answer ["5.6.7.8"]];
           Fake.Dns "www.app.example.com" "example.com" "CNAME"
             [Answer ["app.example.com"]]] [] [])
       eq_refl eq_refl eq_refl eq_refl eq_refl eq_refl eq_refl eq_refl
       eq_refl eq_refl eq_refl eq_refl eq_refl) as [H _].
  unfold Fake.run_flip_app. rewrite H. split; reflexivity.
Defined.

(** C9, witness: the theorem at the record of [app.example.com] flipped to
    its primary value [1.2.3.4,5.6.7.8]. *)
Lemma flip_sends_split_values_witness :
  map answer (new_answers (PyStr.split "1.2.3.4,5.6.7.8" ","))
  = map (fun v => [v]) (PyStr.split "1.2.3.4,5.6.7.8" ",").
Proof.
  exact (proj1 (proj2
    (@flip_sends_split_values Fake.provider primary Fake.app_record [] []
       (World (P:=Fake.provider) Fake.healthy [] [] [])
       "app.example.com" "A" "1.2.3.4,5.6.7.8"
       (map Fake.to_result Fake.dns) Fake.healthy
       [("app.example.com", Some "example.com", "A", ["0.0.0.0"]);
        ("www.app.example.com", Some "example.com", "CNAME",
         ["app.example.com"])]
       ("app.example.com", Some "example.com", "A", ["0.0.0.0"]) []
       ("app.example.com", "A", Some "example.com") Fake.healthy
       eq_refl eq_refl eq_refl eq_refl eq_refl eq_refl))).
Defined.

(** C7, witness: the provider returns the A record of [app.example.com] and
    the CNAME record of [www.app.example.com]; the locator keeps both, and
    [check] prints the first only. *)
Lemma check_reports_exact_matches_only_witness :
  main (P:=Fake.provider) (fun _ => None) "usage" "usage: flip_app"
       (Check "app.example.com")
       (World (P:=Fake.provider) Fake.healthy [] [] [])
  = (Ok tt,
     World (P:=Fake.provider) Fake.healthy
       ["FQDN: app.example.com"; "Zone: example.com"; "Record Type: A";
        "Record Values: ['0.0.0.0']" ++ nl]
       [CallSearch "app.example.com"] []).
Proof.
  exact (proj1 (proj2 (proj2
    (@check_reports_exact_matches_only Fake.provider (fun _ => None)
       "usage" "usage: flip_app" "app.example.com"
       (World (P:=Fake.provider) Fake.healthy [] [] [])
       (map Fake.to_result Fake.dns) Fake.healthy
       [("app.example.com", Some "example.com", "A", ["0.0.0.0"]);
        ("www.app.example.com", Some "example.com", "CNAME",
         ["app.example.com"])]
       eq_refl eq_refl)))).
Defined.

(** *** Failures inside a batch *)

(** C2, on a failing input.  The application [web] declares two records the
    provider holds, and the provider refuses to load the first.  The
    exception of [flip_record] leaves [main]: the run ends with that
    exception after the first record, nothing is printed after the line
    announcing its flip (no summary at all), and the second record is
    neither searched nor flipped. *)
Theorem batch_aborts_when_flip_fails :
  Fake.run "flips.txt" Fake.web_config Fake.load_refused
           (Fake.flip_web_to primary)
  = (Raise (Exn ProviderError "record is locked"),
     World (P:=Fake.provider) Fake.load_refused
       ["Flipping records for application: web (site: primary)";
        "  Flipping app.example.com A to 1.2.3.4,5.6.7.8"]
       [CallSearch "app.example.com";
        CallLoad "app.example.com" "A" (Some "example.com")]
       [(Some "web",
         [Fake.app_record;
          [("fqdn", VPair "www.app.example.com" "CNAME");
           ("primary", VStr "app.example.com");
           ("secondary", VStr "standby.example.net")]])]).
Proof. vm_compute. reflexivity. Qed.

(** The single flip, on the same provider: the exception is caught and
    reported, and [main] ends normally. *)
Example single_flip_reports_failure :
  Fake.run "flips.txt" Fake.web_config Fake.load_refused
           (Flip "app.example.com" "A" "example.com" ["1.2.3.4"])
  = (Ok tt,
     World (P:=Fake.provider) Fake.load_refused
       ["An error occurred while flipping the record for app.example.com: "
        ++ "record is locked"]
       [CallLoad "app.example.com" "A" (Some "example.com")] []).
Proof. vm_compute. reflexivity. Qed.

(** C3, on a failing input.  The application [web] declares two records and
    the provider's search fails for the first.  [search_records] prints the
    failure and returns [None]; the batch then iterates over [None] and
    [main] ends with a [TypeError]: no outcome is recorded for the record,
    no summary is printed, and the second record is never looked up. *)
Theorem batch_aborts_when_lookup_fails :
  Fake.run "flips.txt" Fake.web_config Fake.search_outage
           (Fake.flip_web_to primary)
  = (Raise (Exn TypeError "'NoneType' object is not iterable"),
     World (P:=Fake.provider) Fake.search_outage
       ["Flipping records for application: web (site: primary)";
        "  Flipping app.example.com A to 1.2.3.4,5.6.7.8";
        "An error occurred while searching the records for "
        ++ "app.example.com: search failed"]
       [CallSearch "app.example.com"]
       [(Some "web",
         [Fake.app_record;
          [("fqdn", VPair "www.app.example.com" "CNAME");
           ("primary", VStr "app.example.com");
           ("secondary", VStr "standby.example.net")]])]).
Proof. vm_compute. reflexivity. Qed.

(** The listing in detail, on the same provider: the failed lookup is
    reported for its record and the loop goes on to the next record. *)
Example listing_continues_after_lookup_failure :
  Fake.run "flips.txt" Fake.web_config Fake.search_outage
           (FlipApp (Some "flips.txt") (Some "web") None true)
  = (Ok tt,
     World (P:=Fake.provider) Fake.search_outage
       [nl ++ "Config for web:";
        "FQDN: app.example.com";
        "Primary: 1.2.3.4,5.6.7.8";
        "Secondary: 9.9.9.9";
        "An error occurred while searching the records for "
        ++ "app.example.com: search failed";
        "An error occurred while searching the records for app.example.com";
        "FQDN: www.app.example.com";
        "Primary: app.example.com";
        "Secondary: standby.example.net";
        "-- FQDN: www.app.example.com";
        "   Zone: example.com";
        "   Record Type: CNAME";
        "   Record Values: ['app.example.com']" ++ nl]
       [CallSearch "app.example.com"; CallSearch "www.app.example.com"]
       [(Some "web",
         [Fake.app_record;
          [("fqdn", VPair "www.app.example.com" "CNAME");
           ("primary", VStr "app.example.com");
           ("secondary", VStr "standby.example.net")]])]).
Proof. vm_compute. reflexivity. Qed.

(** *** Looking up an application that is not in the model *)

(** C10, witness: a batch flip and a listing in detail for the name
    [nosuch], absent from the model, leave it absent. *)
Lemma flip_app_action_preserves_model_witness :
  cfg_get (Some "nosuch")
    (model (snd (Fake.run_flip_app Fake.ghost_model Fake.healthy
                   (Some "nosuch") (Some primary) false))) = None /\
  cfg_get (Some "nosuch")
    (model (snd (Fake.run_flip_app Fake.ghost_model Fake.healthy
                   (Some "nosuch") None true))) = None.
Proof.
  split.
  - exact (proj2
      (@flip_app_action_preserves_model Fake.provider
         (Some "nosuch") (Some primary) false
         (World (P:=Fake.provider) Fake.healthy [] [] Fake.ghost_model))
      (Some "nosuch") eq_refl).
  - exact (proj2
      (@flip_app_action_preserves_model Fake.provider
         (Some "nosuch") None true
         (World (P:=Fake.provider) Fake.healthy [] [] Fake.ghost_model))
      (Some "nosuch") eq_refl).
Defined.

(** What the batch flip prints for a name that is not in the model. *)
Example unknown_application_reported :
  Fake.run_flip_app Fake.ghost_model Fake.healthy
    (Some "nosuch") (Some primary) false
  = (Ok tt,
     World (P:=Fake.provider) Fake.healthy
       [nl ++ "Application 'nosuch' not found in the configuration file."]
       [] Fake.ghost_model).
Proof. vm_compute. reflexivity. Qed.

(** The subscript itself, on the same model, would add the name. *)
Example subscript_would_insert :
  model (snd (model_getitem (P:=Fake.provider) (Some "nosuch")
                (World (P:=Fake.provider) Fake.healthy [] []
                   Fake.ghost_model)))
  = (Fake.ghost_model ++ [(Some "nosuch", [])])%list.
Proof. vm_compute. reflexivity. Qed.

(* ================================================================== *)
(** * Further properties of the code *)

(** ** parse_flip_config *)

(** *** Blank lines and comments *)

(** Blank lines and comment lines may stand anywhere in the file, also
    inside a record block: removing them changes nothing, neither the model
    nor a failure. *)
Theorem skipped_lines_are_ignored lines : forall st,
  parse_from st (filter (fun l => negb (is_skipped l)) lines)
  = parse_from st lines.
Proof.
  induction lines as [|l lines IH]; intros st; [reflexivity|].
  cbn [filter]. unfold is_skipped at 1.
  destruct (classify l) eqn:Hk; cbn [negb parse_from];
    try (destruct (parse_line st l); [apply IH | reflexivity]).
  rewrite IH, parse_line_classify, Hk. reflexivity.
Qed.

(** *** Whitespace around a line *)

Lemma all_space_lstrip pad s :
  all_space pad = true -> PyStr.lstrip (pad ++ s) = PyStr.lstrip s.
Proof.
  induction pad as [|c pad IH]; simpl; [reflexivity|].
  intros H. apply andb_prop in H. destruct H as [Hc Hp].
  rewrite Hc. auto.
Qed.

Lemma all_space_lstrip_nil pad :
  all_space pad = true -> PyStr.lstrip pad = EmptyString.
Proof.
  induction pad as [|c pad IH]; simpl; [reflexivity|].
  intros H. apply andb_prop in H. destruct H as [Hc Hp].
  rewrite Hc. auto.
Qed.

Lemma all_space_rstrip_nil pad :
  all_space pad = true -> PyStr.rstrip pad = EmptyString.
Proof.
  induction pad as [|c pad IH]; simpl; [reflexivity|].
  intros H. apply andb_prop in H. destruct H as [Hc Hp].
  rewrite (IH Hp), Hc. reflexivity.
Qed.

Lemma all_space_rstrip s pad :
  all_space pad = true -> PyStr.rstrip (s ++ pad) = PyStr.rstrip s.
Proof.
  intros Hp. induction s as [|c s IH]; simpl.
  - now apply all_space_rstrip_nil.
  - now rewrite IH.
Qed.

Lemma all_space_strip_right s pad :
  all_space pad = true ->
  PyStr.rstrip (PyStr.lstrip (s ++ pad)) = PyStr.rstrip (PyStr.lstrip s).
Proof.
  intros Hp. induction s as [|c s IH].
  - simpl. now rewrite (all_space_lstrip_nil pad Hp).
  - cbn [String.append PyStr.lstrip].
    destruct (PyStr.is_space c); [exact IH|].
    change (String c (s ++ pad)) with (String c s ++ pad)%string.
    now apply all_space_rstrip.
Qed.

Lemma strip_padding pad1 s pad2 :
  all_space pad1 = true -> all_space pad2 = true ->
  PyStr.strip (pad1 ++ s ++ pad2) = PyStr.strip s.
Proof.
  intros H1 H2. unfold PyStr.strip.
  rewrite (all_space_lstrip pad1 _ H1). now apply all_space_strip_right.
Qed.

(** Indentation and trailing whitespace, the line terminator included, do
    not matter: a line surrounded by whitespace is parsed as the line
    itself. *)
Theorem padding_is_ignored st pad1 raw pad2 :
  all_space pad1 = true ->
  all_space pad2 = true ->
  parse_line st (pad1 ++ raw ++ pad2) = parse_line st raw.
Proof.
  intros H1 H2. unfold parse_line.
  now rewrite (strip_padding pad1 raw pad2 H1 H2).
Qed.

(** The theorem at an indented [secondary:] line ending in CR LF. *)
Lemma padding_is_ignored_witness :
  parse_line (ParserState (Some "web") [("primary", VStr "1.1.1.1")] [])
             ("    " ++ "secondary: 2.2.2.2" ++ String CR (String LF ""))
  = parse_line (ParserState (Some "web") [("primary", VStr "1.1.1.1")] [])
               "secondary: 2.2.2.2".
Proof.
  apply (padding_is_ignored
           (ParserState (Some "web") [("primary", VStr "1.1.1.1")] [])
           "    " "secondary: 2.2.2.2" (String CR (String LF ""))).
  - reflexivity.
  - reflexivity.
Defined.

(** *** The [fqdn:] line *)

(** What follows [fqdn:] is split at whitespace and must give exactly two
    words, the name and the record type.  With two words the line sets (or
    replaces) the [fqdn] pair of the record in progress and touches nothing
    else; with any other number of words, as in [fqdn: host] or
    [fqdn: host A extra], the parse of the whole file fails with the
    [ValueError] of the unpacking. *)
Theorem fqdn_line_outcome pre raw post st :
  parse_from initial_state pre = Ok st ->
  classify raw = FqdnLine ->
  (List.length (PyStr.split_ws (PyStr.drop 5 (PyStr.strip raw))) <> 2 ->
   exists e, parse_lines (pre ++ raw :: post) = Raise e /\
             exn_class e = ValueError) /\
  (forall fqdn record_type,
     PyStr.split_ws (PyStr.drop 5 (PyStr.strip raw)) = [fqdn; record_type] ->
     parse_from initial_state (pre ++ [raw])
     = Ok (ParserState (current_application st)
             (rec_set "fqdn" (VPair fqdn record_type) (current_record st))
             (flip_config st)) /\
     rec_get "fqdn"
       (rec_set "fqdn" (VPair fqdn record_type) (current_record st))
     = Some (VPair fqdn record_type) /\
     forall key, key <> "fqdn" ->
       rec_get key
         (rec_set "fqdn" (VPair fqdn record_type) (current_record st))
       = rec_get key (current_record st)).
Proof.
  intros Hpre Hkind. split.
  - intros Hlen. unfold parse_lines.
    rewrite parse_from_app, Hpre. cbn [parse_from].
    rewrite parse_line_classify, Hkind.
    destruct (PyStr.split_ws _) as [|a [|b [|c l]]];
      try (eexists; split; [reflexivity | apply unpack_error_class]).
    simpl in Hlen. congruence.
  - intros fqdn record_type Hsplit.
    rewrite parse_from_app, Hpre. cbn [parse_from].
    rewrite parse_line_classify, Hkind, Hsplit.
    split; [reflexivity|]. split; [apply rec_get_set_same|].
    intros key Hne. apply rec_get_set_other. congruence.
Qed.

(** The theorem at the line [fqdn: host], which has no record type. *)
Lemma fqdn_line_outcome_witness :
  exists e, parse_lines (["[web]"] ++ "fqdn: host" :: ["primary: 1.1.1.1"])
            = Raise e /\ exn_class e = ValueError.
Proof.
  apply (fqdn_line_outcome ["[web]"] "fqdn: host" ["primary: 1.1.1.1"]
           (ParserState (Some "web") [] []) eq_refl eq_refl).
  simpl. discriminate.
Defined.

(** *** How many records a file yields *)

Lemma total_records_set_absent k v c :
  cfg_get k c = None ->
  total_records (cfg_set k v c) = total_records c + List.length v.
Proof.
  unfold cfg_get, cfg_set.
  induction c as [|[k' l] c IH]; simpl; [lia|].
  destruct (option_string_eqb k k'); [discriminate|].
  intros H. simpl. rewrite (IH H). lia.
Qed.

Lemma total_records_set_present k v l c :
  cfg_get k c = Some l ->
  total_records (cfg_set k v c) + List.length l
  = total_records c + List.length v.
Proof.
  unfold cfg_get, cfg_set.
  induction c as [|[k' l'] c IH]; simpl; [discriminate|].
  destruct (option_string_eqb k k').
  - intros [= ->]. simpl. lia.
  - intros H. simpl. specialize (IH H). lia.
Qed.

Lemma total_records_append a r c :
  total_records (cfg_append a r c) = S (total_records c).
Proof.
  unfold cfg_append, dd_getitem, records_of.
  destruct (cfg_get a c) as [l|] eqn:E; cbn [snd].
  - pose proof (total_records_set_present a (l ++ [r]) l c E) as H.
    rewrite length_app in H. simpl in H. lia.
  - pose proof (total_records_set_present a ([] ++ [r]) [] (cfg_set a [] c)
                  (cfg_get_set_same a [] c)) as H.
    rewrite (total_records_set_absent a [] c E) in H. simpl in H.
    simpl. lia.
Qed.

Lemma parse_line_total st raw st' :
  parser_inv st ->
  parse_line st raw = Ok st' ->
  total_records (flip_config st')
  = total_records (flip_config st) + (if seals raw then 1 else 0).
Proof.
  intros [Hrec _]. rewrite parse_line_classify. unfold seals.
  destruct (classify raw).
  - intros [= <-]. lia.
  - intros [= <-]. simpl. lia.
  - destruct (PyStr.split_ws _) as [|a [|b [|c l]]]; try discriminate.
    intros [= <-]. simpl. lia.
  - destruct (PyStr.split _ _) as [|key [|val [|c l]]]; try discriminate.
    cbv zeta. destruct (rec_mem "secondary" (rec_set _ _ _)) eqn:E;
      intros [= <-]; cbn [flip_config].
    + destruct (sealed_by_secondary _ _ _ Hrec E) as [-> _].
      pose proof (total_records_append (current_application st)
                    (rec_set "secondary" (VStr val) (current_record st))
                    (flip_config st)) as Ht.
      transitivity (S (total_records (flip_config st))); [exact Ht|].
      simpl. lia.
    + destruct (String.eqb key "secondary") eqn:Hk; [|lia].
      apply String.eqb_eq in Hk. subst key.
      unfold rec_mem, Dict.mem in E. fold rec_get in E. fold rec_set in E.
      rewrite rec_get_set_same in E. discriminate.
Qed.

Lemma parse_from_total lines : forall st st',
  parser_inv st ->
  parse_from st lines = Ok st' ->
  total_records (flip_config st')
  = total_records (flip_config st) + List.length (filter seals lines).
Proof.
  induction lines as [|l lines IH]; intros st st' Hinv; cbn [parse_from].
  - intros [= <-]. simpl. lia.
  - destruct (parse_line st l) as [st1|e] eqn:E; [|discriminate].
    intros H.
    rewrite (IH st1 st' (parse_line_inv _ _ _ Hinv E) H).
    rewrite (parse_line_total _ _ _ Hinv E). cbn [filter].
    destruct (seals l); simpl; lia.
Qed.

(** A file that parses yields exactly one record per [secondary:] line,
    counted over all applications: no other line adds a record, and none is
    lost.  In particular an application whose block has no [secondary:] line
    contributes nothing. *)
Theorem one_record_per_secondary_line lines m :
  parse_lines lines = Ok m ->
  total_records m = List.length (filter seals lines).
Proof.
  unfold parse_lines.
  destruct (parse_from initial_state lines) as [st|e] eqn:E; [|discriminate].
  intros [= <-].
  assert (Hinv : parser_inv initial_state)
    by (split; [reflexivity | constructor]).
  rewrite (parse_from_total lines _ _ Hinv E). reflexivity.
Qed.

(** The theorem at a file with two applications, the second of which never
    completes a record. *)
Lemma one_record_per_secondary_line_witness :
  total_records [(Some "web", [Fake.app_record])] = 1.
Proof.
  exact (one_record_per_secondary_line
           ["[web]"; "fqdn: app.example.com A"; "primary: 1.2.3.4,5.6.7.8";
            "secondary: 9.9.9.9"; "[db]"; "fqdn: db.example.com A";
            "primary: 3.3.3.3"]
           [(Some "web", [Fake.app_record])] eq_refl).
Defined.

(** *** The keys of the model *)

Lemma parse_from_keys_from (Q : option string -> Prop) todo : forall st st',
  (forall l a, In l todo -> header_name l = Some a -> Q (Some a)) ->
  Q (current_application st) ->
  Forall Q (Dict.keys (flip_config st)) ->
  parse_from st todo = Ok st' ->
  Forall Q (Dict.keys (flip_config st')).
Proof.
  induction todo as [|l todo IH]; intros st st' Hh Ha Hk; cbn [parse_from].
  - now intros [= <-].
  - destruct (parse_line st l) as [st1|e] eqn:E; [|discriminate].
    apply IH.
    + intros l' a Hin. apply Hh. now right.
    + destruct (header_name l) as [a|] eqn:Hn.
      * rewrite (parse_line_header st l a Hn) in E. injection E as <-.
        simpl. apply (Hh l a); [now left | exact Hn].
      * rewrite (parse_line_application st l st1); [exact Ha | | exact E].
        unfold is_header. unfold header_name in Hn.
        destruct (classify l); congruence.
    + exact (parse_line_keys Q st l st1 Ha Hk E).
Qed.

(** Every key of a parsed model is [None] or the name between the brackets
    of a header line of the file: the parser invents no application, and a
    record is never filed under a name the file does not declare. *)
Theorem model_keys_are_declared lines m k :
  parse_lines lines = Ok m ->
  In k (Dict.keys m) ->
  k = None \/ exists l, In l lines /\ header_name l = k.
Proof.
  unfold parse_lines.
  destruct (parse_from initial_state lines) as [st|e] eqn:E; [|discriminate].
  intros [= <-] Hin.
  assert (H : Forall
                (fun k => k = None \/
                          exists l, In l lines /\ header_name l = k)
                (Dict.keys (flip_config st))).
  { refine (parse_from_keys_from _ lines initial_state st _ _ _ E).
    - intros l a Hl Hn. right. exists l. auto.
    - now left.
    - constructor. }
  rewrite Forall_forall in H. exact (H k Hin).
Qed.

(** The theorem at a two-application file, for the key [db]. *)
Lemma model_keys_are_declared_witness :
  Some "db" = None \/
  exists l,
    In l ["[web]"; "secondary: a"; "[db]"; "secondary: b"] /\
    header_name l = Some "db".
Proof.
  apply (model_keys_are_declared
           ["[web]"; "secondary: a"; "[db]"; "secondary: b"]
           [(Some "web", [[("secondary", VStr "a")]]);
            (Some "db", [[("secondary", VStr "b")]])]
           (Some "db")).
  - reflexivity.
  - right. left. reflexivity.
Defined.

(** *** A header inside a record block *)

(** A header does not close the record in progress: the fields read before
    it, under another application or under none, stay in the record, and the
    next [secondary:] line seals them into a record of the application the
    header names. *)
Theorem header_keeps_record_in_progress st h b raw val :
  header_name h = Some b ->
  classify raw = KeyValue ->
  PyStr.split (PyStr.strip raw) ": " = ["secondary"; val] ->
  parse_from st [h; raw]
  = Ok (ParserState (Some b) []
          (cfg_append (Some b)
             (rec_set "secondary" (VStr val) (current_record st))
             (flip_config st))) /\
  records_of (Some b)
    (cfg_append (Some b)
       (rec_set "secondary" (VStr val) (current_record st))
       (flip_config st))
  = (records_of (Some b) (flip_config st)
     ++ [rec_set "secondary" (VStr val) (current_record st)])%list.
Proof.
  intros Hh Hk Hs. split.
  - cbn [parse_from]. rewrite (parse_line_header st h b Hh).
    rewrite parse_line_classify, Hk, Hs.
    cbn [current_application current_record flip_config]. cbv zeta.
    unfold rec_mem, Dict.mem. fold rec_get. fold rec_set.
    rewrite rec_get_set_same. reflexivity.
  - apply records_of_append.
Qed.

(** The theorem at a file where [[db]] comes between the [primary:] and the
    [secondary:] line of a record of [web]: the record lands under [db]. *)
Lemma header_keeps_record_in_progress_witness :
  parse_from
    (ParserState (Some "web")
       [("fqdn", VPair "app.example.com" "A"); ("primary", VStr "1.1.1.1")]
       [])
    ["[db]"; "secondary: 2.2.2.2"]
  = Ok (ParserState (Some "db") []
          [(Some "db",
            [[("fqdn", VPair "app.example.com" "A");
              ("primary", VStr "1.1.1.1"); ("secondary", VStr "2.2.2.2")]])]).
Proof.
  exact (proj1 (header_keeps_record_in_progress
           (ParserState (Some "web")
              [("fqdn", VPair "app.example.com" "A");
               ("primary", VStr "1.1.1.1")] [])
           "[db]" "db" "secondary: 2.2.2.2" "2.2.2.2"
           eq_refl eq_refl eq_refl)).
Defined.

(** *** The format of the docstring *)

Lemma string_app_assoc (a b c : string) :
  ((a ++ b) ++ c = a ++ (b ++ c))%string.
Proof. induction a; simpl; congruence. Qed.

Lemma eqb_empty_false s : s <> EmptyString -> String.eqb s "" = false.
Proof. destruct s; [contradiction | reflexivity]. Qed.

Lemma prefix_empty s : String.prefix "" s = true.
Proof. destruct s; reflexivity. Qed.

Lemma no_space_rstrip t : no_space t = true -> PyStr.rstrip t = t.
Proof.
  induction t as [|c t IH]; simpl; [reflexivity|].
  intros H. apply andb_prop in H. destruct H as [Hc Ht].
  apply negb_true_iff in Hc. rewrite Hc, (IH Ht). reflexivity.
Qed.

(** A string that is not empty and has no trailing whitespace keeps these
    two properties when something is put before it. *)
Lemma rstrip_app_tight x t :
  t <> EmptyString -> PyStr.rstrip t = t ->
  (x ++ t)%string <> EmptyString /\ PyStr.rstrip (x ++ t) = (x ++ t)%string.
Proof.
  intros Hne Ht. induction x as [|c x [IH1 IH2]]; simpl.
  - auto.
  - split; [discriminate|].
    rewrite IH2, (eqb_empty_false _ IH1), andb_false_r. reflexivity.
Qed.

Lemma word_tight t :
  word t -> t <> EmptyString /\ PyStr.rstrip t = t.
Proof. intros [Hne Hs]. split; [exact Hne | now apply no_space_rstrip]. Qed.

Lemma strip_tight c s :
  PyStr.is_space c = false ->
  PyStr.rstrip (String c s) = String c s ->
  PyStr.strip (String c s) = String c s.
Proof.
  intros Hc Hr. unfold PyStr.strip. cbn [PyStr.lstrip]. now rewrite Hc.
Qed.

Lemma split_ws_word t : word t -> PyStr.split_ws t = [t].
Proof.
  intros [Hne Hs]. induction t as [|c t IH]; [contradiction|].
  simpl in Hs. apply andb_prop in Hs. destruct Hs as [Hc Ht].
  apply negb_true_iff in Hc. cbn [PyStr.split_ws]. rewrite Hc.
  destruct t as [|c' t]; [reflexivity|].
  assert (Hc' : PyStr.is_space c' = false).
  { simpl in Ht. apply andb_prop in Ht. destruct Ht as [H _].
    now apply negb_true_iff in H. }
  rewrite Hc', IH; [reflexivity | discriminate | exact Ht].
Qed.

Lemma split_ws_word_then f rest :
  word f ->
  PyStr.split_ws (f ++ String " " rest) = f :: PyStr.split_ws rest.
Proof.
  intros [Hne Hs]. induction f as [|c f IH]; [contradiction|].
  simpl in Hs. apply andb_prop in Hs. destruct Hs as [Hc Hf].
  apply negb_true_iff in Hc.
  cbn [String.append PyStr.split_ws]. rewrite Hc.
  destruct f as [|c' f].
  - reflexivity.
  - assert (Hc' : PyStr.is_space c' = false).
    { simpl in Hf. apply andb_prop in Hf. destruct Hf as [H _].
      now apply negb_true_iff in H. }
    cbn [String.append]. rewrite Hc'.
    change (String c' (f ++ String " " rest))
      with (String c' f ++ String " " rest)%string.
    rewrite IH; [reflexivity | discriminate | exact Hf].
Qed.

Lemma drop_last_bracket name : PyStr.drop_last (name ++ "]") = name.
Proof.
  induction name as [|c name IH]; [reflexivity|].
  cbn [String.append PyStr.drop_last].
  destruct name as [|c' name]; [reflexivity|].
  cbn [String.append] in *. now rewrite IH.
Qed.

(** The lines of the format, as the parser reads them. *)

Lemma fqdn_line_read f t :
  word f -> word t ->
  classify ("fqdn: " ++ f ++ " " ++ t) = FqdnLine /\
  PyStr.split_ws (PyStr.drop 5 (PyStr.strip ("fqdn: " ++ f ++ " " ++ t)))
  = [f; t].
Proof.
  intros Hf Ht.
  assert (Hs : PyStr.strip ("fqdn: " ++ f ++ " " ++ t)
               = ("fqdn: " ++ f ++ " " ++ t)%string).
  { destruct (word_tight t Ht) as [H1 H2].
    destruct (rstrip_app_tight " " t H1 H2) as [H3 H4].
    destruct (rstrip_app_tight f _ H3 H4) as [H5 H6].
    destruct (rstrip_app_tight "fqdn: " _ H5 H6) as [_ H7].
    apply strip_tight; [reflexivity | exact H7]. }
  unfold classify. rewrite Hs. split; [reflexivity|].
  change (PyStr.drop 5 ("fqdn: " ++ f ++ " " ++ t))
    with (String " " (f ++ String " " t)).
  cbn [PyStr.split_ws].
  change (PyStr.is_space " ") with true. cbv iota.
  now rewrite (split_ws_word_then f t Hf), (split_ws_word t Ht).
Qed.

Lemma key_value_line_read (key : string) v :
  key = "primary" \/ key = "secondary" ->
  plain_value v ->
  classify (key ++ ": " ++ v) = KeyValue /\
  PyStr.split (PyStr.strip (key ++ ": " ++ v)) ": " = [key; v].
Proof.
  intros Hkey [Hne [Hr Hsp]].
  unfold PyStr.split in Hsp.
  destruct (rstrip_app_tight ": " v Hne Hr) as [H1 H2].
  destruct Hkey as [-> | ->].
  - destruct (rstrip_app_tight "primary" _ H1 H2) as [_ H3].
    assert (Hs : PyStr.strip ("primary" ++ ": " ++ v)
                 = ("primary" ++ ": " ++ v)%string)
      by (apply strip_tight; [reflexivity | exact H3]).
    unfold classify. rewrite Hs. split; [reflexivity|].
    unfold PyStr.split. simpl. rewrite Hsp, (prefix_empty v). reflexivity.
  - destruct (rstrip_app_tight "secondary" _ H1 H2) as [_ H3].
    assert (Hs : PyStr.strip ("secondary" ++ ": " ++ v)
                 = ("secondary" ++ ": " ++ v)%string)
      by (apply strip_tight; [reflexivity | exact H3]).
    unfold classify. rewrite Hs. split; [reflexivity|].
    unfold PyStr.split. simpl. rewrite Hsp, (prefix_empty v). reflexivity.
Qed.

Lemma header_line_read name :
  header_name ("[" ++ name ++ "]") = Some name.
Proof.
  assert (Hr : PyStr.rstrip ("[" ++ name ++ "]")
               = ("[" ++ name ++ "]")%string).
  { assert (H1 : "]"%string <> EmptyString) by discriminate.
    destruct (rstrip_app_tight name "]" H1 eq_refl) as [H2 H3].
    destruct (rstrip_app_tight "[" _ H2 H3) as [_ H4]. exact H4. }
  assert (Hs : PyStr.strip ("[" ++ name ++ "]") = ("[" ++ name ++ "]")%string)
    by (apply strip_tight; [reflexivity | exact Hr]).
  assert (He : PyStr.endswith ("[" ++ name ++ "]") "]" = true).
  { apply endswith_spec. exists ("[" ++ name)%string.
    now rewrite string_app_assoc. }
  unfold header_name, classify. rewrite Hs, He.
  cbn. now rewrite prefix_empty, drop_last_bracket.
Qed.

Lemma cfg_set_absent k v c :
  cfg_get k c = None -> cfg_set k v c = (c ++ [(k, v)])%list.
Proof.
  unfold cfg_get, cfg_set.
  induction c as [|[k' l] c IH]; simpl; [reflexivity|].
  destruct (option_string_eqb k k'); [discriminate|].
  intros H. now rewrite (IH H).
Qed.

Lemma cfg_get_last k v c :
  cfg_get k c = None -> cfg_get k (c ++ [(k, v)])%list = Some v.
Proof.
  intros H. rewrite <- (cfg_set_absent k v c H). apply cfg_get_set_same.
Qed.

Lemma cfg_get_last_other k k' v c :
  k' <> k -> cfg_get k (c ++ [(k', v)])%list = cfg_get k c.
Proof.
  intros Hne. unfold cfg_get.
  induction c as [|[k0 l] c IH]; simpl.
  - destruct (option_string_eqb k k') eqn:E; [|reflexivity].
    apply option_string_eqb_eq in E. congruence.
  - now rewrite IH.
Qed.

Lemma cfg_set_last k v v0 c :
  cfg_get k c = None ->
  cfg_set k v (c ++ [(k, v0)])%list = (c ++ [(k, v)])%list.
Proof.
  unfold cfg_get, cfg_set.
  induction c as [|[k' l] c IH]; simpl.
  - intros _. now rewrite (proj2 (option_string_eqb_eq k k) eq_refl).
  - destruct (option_string_eqb k k'); [discriminate|].
    intros H. now rewrite (IH H).
Qed.

(** Appending to an application that has no entry creates the entry, last;
    appending to the last entry extends its list. *)
Lemma cfg_append_fresh a r c :
  cfg_get a c = None -> cfg_append a r c = (c ++ [(a, [r])])%list.
Proof.
  intros H. unfold cfg_append, dd_getitem, records_of. rewrite H.
  cbn [snd]. rewrite (cfg_set_absent a [] c H).
  now rewrite (cfg_set_last a ([] ++ [r])%list [] c H).
Qed.

Lemma cfg_append_last a r l c :
  cfg_get a c = None ->
  cfg_append a r (c ++ [(a, l)])%list = (c ++ [(a, l ++ [r])])%list.
Proof.
  intros H. unfold cfg_append, dd_getitem, records_of.
  rewrite (cfg_get_last a l c H). cbn [snd].
  now rewrite (cfg_set_last a (l ++ [r])%list l c H).
Qed.

Lemma parse_line_terminated st line :
  parse_line st (line ++ nl)%string = parse_line st line.
Proof.
  unfold parse_line, PyStr.strip.
  now rewrite (all_space_strip_right line nl eq_refl).
Qed.

(** The three lines of a declaration add its record to the current
    application. *)
Lemma parse_rendered_record a c d rest :
  well_formed d ->
  parse_from (ParserState a [] c)
    (map (fun l => l ++ nl)%string (render_record d) ++ rest)%list
  = parse_from (ParserState a [] (cfg_append a (to_record d) c)) rest.
Proof.
  intros [Hf [Ht [Hp Hs]]].
  destruct (fqdn_line_read _ _ Hf Ht) as [Hc1 Hs1].
  destruct (key_value_line_read "primary" _ (or_introl eq_refl) Hp)
    as [Hc2 Hs2].
  destruct (key_value_line_read "secondary" _ (or_intror eq_refl) Hs)
    as [Hc3 Hs3].
  change ("primary" ++ ": " ++ decl_primary d)%string
    with ("primary: " ++ decl_primary d)%string in Hc2, Hs2.
  change ("secondary" ++ ": " ++ decl_secondary d)%string
    with ("secondary: " ++ decl_secondary d)%string in Hc3, Hs3.
  unfold render_record. cbn [map List.app parse_from].
  rewrite parse_line_terminated, parse_line_classify, Hc1, Hs1.
  cbn [current_application current_record flip_config].
  rewrite parse_line_terminated, parse_line_classify, Hc2, Hs2.
  cbn [current_application current_record flip_config]. cbv zeta.
  change (rec_mem "secondary"
            (rec_set "primary" (VStr (decl_primary d))
               (rec_set "fqdn" (VPair (decl_fqdn d) (decl_type d)) [])))
    with false. cbv iota.
  rewrite parse_line_terminated, parse_line_classify, Hc3, Hs3.
  cbn [current_application current_record flip_config]. cbv zeta.
  change (rec_mem "secondary"
            (rec_set "secondary" (VStr (decl_secondary d))
               (rec_set "primary" (VStr (decl_primary d))
                  (rec_set "fqdn" (VPair (decl_fqdn d) (decl_type d)) []))))
    with true. cbv iota.
  reflexivity.
Qed.

Lemma parse_rendered_records a c ds : forall l rest,
  cfg_get a c = None ->
  Forall well_formed ds ->
  parse_from (ParserState a [] (c ++ [(a, l)])%list)
    (map (fun l => l ++ nl)%string (flat_map render_record ds) ++ rest)%list
  = parse_from (ParserState a [] (c ++ [(a, l ++ map to_record ds)])%list)
      rest.
Proof.
  induction ds as [|d ds IH]; intros l rest Ha Hw.
  - simpl. now rewrite app_nil_r.
  - inversion Hw as [|? ? Hd Hds]; subst.
    cbn [flat_map]. rewrite map_app, <- app_assoc.
    rewrite (parse_rendered_record a _ d _ Hd).
    rewrite (cfg_append_last a (to_record d) l c Ha).
    rewrite (IH _ rest Ha Hds). cbn [map].
    now rewrite <- app_assoc.
Qed.

Lemma parse_rendered_apps apps : forall x c,
  NoDup (map fst apps) ->
  (forall a, In a apps -> cfg_get (Some (fst a)) c = None) ->
  Forall (fun a => snd a <> [] /\ Forall well_formed (snd a)) apps ->
  exists y,
    parse_from (ParserState x [] c)
      (map (fun l => l ++ nl)%string (render apps))
    = Ok (ParserState y [] (c ++ described apps)%list).
Proof.
  induction apps as [|[name ds] apps IH]; intros x c Hnd Hfresh Hw.
  - exists x. simpl. now rewrite app_nil_r.
  - inversion Hnd as [|? ? Hnotin Hnd']; subst.
    inversion Hw as [|? ? [Hne Hds] Hw']; subst. cbn [fst snd] in *.
    assert (Hname : cfg_get (Some name) c = None)
      by (apply (Hfresh (name, ds)); now left).
    destruct ds as [|d ds]; [contradiction|].
    inversion Hds as [|? ? Hd Hds']; subst.
    destruct (IH (Some name)
                (c ++ [(Some name, to_record d :: map to_record ds)])%list
                Hnd') as [y Hy].
    + intros a Hin. rewrite cfg_get_last_other.
      * apply Hfresh. now right.
      * intros [= Heq]. apply Hnotin. rewrite Heq.
        now apply in_map.
    + exact Hw'.
    + exists y.
      unfold render. cbn [flat_map]. unfold render_app at 1.
      cbn [fst snd flat_map map List.app parse_from].
      rewrite parse_line_terminated.
      rewrite (parse_line_header _ _ name (header_line_read name)).
      cbn [current_record flip_config].
      rewrite map_app, map_app, <- app_assoc.
      rewrite (parse_rendered_record (Some name) c d _ Hd).
      rewrite (cfg_append_fresh (Some name) (to_record d) c Hname).
      rewrite (parse_rendered_records (Some name) c ds _ _ Hname Hds').
      fold (render apps). cbn [List.app].
      rewrite Hy. cbn [described map fst snd].
      now rewrite <- app_assoc.
Qed.

(** A file written in the format of the docstring parses to the model it
    describes.  For applications with distinct names, each with at least one
    declaration whose name and type are words and whose values are not
    empty, have no trailing whitespace and no [": "] inside, the lines
    [[name]], [fqdn: <fqdn> <type>], [primary: <value>],
    [secondary: <value>] yield one entry per application, in file order,
    holding one record per declaration, in file order, with exactly the
    declared fqdn, type, primary and secondary values. *)
Theorem documented_format_round_trip apps :
  NoDup (map fst apps) ->
  Forall (fun a => snd a <> [] /\ Forall well_formed (snd a)) apps ->
  parse_lines (map (fun l => l ++ nl)%string (render apps))
  = Ok (described apps).
Proof.
  intros Hnd Hw. unfold parse_lines, initial_state.
  destruct (parse_rendered_apps apps None [] Hnd (fun _ _ => eq_refl) Hw)
    as [y Hy].
  now rewrite Hy.
Qed.

(** The theorem at a file with two applications and three declarations. *)
Lemma documented_format_round_trip_witness :
  parse_lines
    (map (fun l => l ++ nl)%string
       (render
          [("web",
            [Declaration "app.example.com" "A" "1.2.3.4,5.6.7.8" "9.9.9.9";
             Declaration "www.app.example.com" "CNAME" "app.example.com"
                         "standby.example.net"]);
           ("db", [Declaration "db.example.com" "A" "3.3.3.3" "4.4.4.4"])]))
  = Ok (described
          [("web",
            [Declaration "app.example.com" "A" "1.2.3.4,5.6.7.8" "9.9.9.9";
             Declaration "www.app.example.com" "CNAME" "app.example.com"
                         "standby.example.net"]);
           ("db", [Declaration "db.example.com" "A" "3.3.3.3" "4.4.4.4"])]).
Proof.
  apply documented_format_round_trip.
  - repeat constructor; simpl; intuition discriminate.
  - repeat constructor; simpl; try discriminate; reflexivity.
Defined.

(* ================================================================== *)
(** ** search_records, flip_record and main *)

(** *** The value string and the answers *)

Lemma split_from_nonempty sep s : forall skip,
  PyStr.split_from sep skip s <> [].
Proof.
  induction s as [|c s IH]; intros skip; cbn [PyStr.split_from];
    [discriminate|].
  destruct skip; [|apply IH].
  destruct (String.prefix sep (String c s)); [discriminate|].
  destruct (PyStr.split_from sep 0 s); discriminate.
Qed.

Lemma join_cons sep x l :
  l <> [] -> PyStr.join sep (x :: l) = (x ++ sep ++ PyStr.join sep l)%string.
Proof. destruct l; [contradiction | reflexivity]. Qed.

Lemma join_cons_char sep c h t :
  PyStr.join sep (String c h :: t) = String c (PyStr.join sep (h :: t)).
Proof. destruct t; reflexivity. Qed.

Lemma join_split_comma s : PyStr.join "," (PyStr.split s ",") = s.
Proof.
  unfold PyStr.split. induction s as [|c s IH]; [reflexivity|].
  cbn [PyStr.split_from String.prefix].
  destruct (ascii_dec "," c) as [<-|Hne].
  - rewrite prefix_empty. cbn [String.length Nat.sub].
    rewrite join_cons by apply split_from_nonempty.
    rewrite IH. reflexivity.
  - destruct (PyStr.split_from "," 0 s) as [|h t] eqn:E.
    + exfalso. exact (split_from_nonempty "," s 0 E).
    + rewrite join_cons_char, IH. reflexivity.
Qed.

(** Nothing of the configured value string is lost or altered on its way to
    the provider: the values of the answer entries built from
    [new_value.split(',')], joined with commas, are the value string. *)
Theorem answers_spell_the_value s :
  PyStr.join "," (concat (map answer (new_answers (PyStr.split s ",")))) = s.
Proof.
  assert (H : forall l, concat (map answer (new_answers l)) = l).
  { induction l as [|x l IH]; [reflexivity|].
    simpl. f_equal. exact IH. }
  rewrite H. apply join_split_comma.
Qed.

Section FurtherOrchestration.

Context {P : Provider}.
Variable fs : string -> option string.
Variables parser_help flip_app_help : string.

(** *** search_records *)

Lemma exn_class_cases (e : exn) {A} (x y : A) :
  exn_class e <> SystemExit ->
  match exn_class e with SystemExit => x | _ => y end = y.
Proof. intros H. destruct (exn_class e); congruence. Qed.

(** [search_records] does not raise on any failure of the provider or of
    the reading of its results: it returns the located records, or [None]
    after printing the failure.  It makes one provider call, the search, and
    it prints nothing when it succeeds. *)
Theorem search_records_never_raises fqdn w :
  (forall e p, searchZone fqdn (prov w) = (Raise e, p) ->
               exn_class e <> SystemExit) ->
  exists r w',
    search_records fqdn w = (Ok r, w') /\
    calls w' = (calls w ++ [CallSearch fqdn])%list /\
    model w' = model w /\
    (forall records, r = Some records -> out w' = out w) /\
    (r = None -> exists e more,
       out w' = (out w ++ search_error_line fqdn e :: more)%list).
Proof.
  intros Hexn.
  unfold search_records, api_searchZone, bind, log, provider_op. simpl.
  destruct (searchZone fqdn (prov w)) as [[results|e] p] eqn:Hs.
  - destruct (collect fqdn results) as [records|e] eqn:Hc.
    + eexists; eexists. split; [reflexivity|]. simpl.
      repeat split; auto. discriminate.
    + eexists; eexists. unfold search_failed, bind, print, ret. simpl.
      split; [reflexivity|]. simpl. repeat split; try discriminate.
      intros _. exists e. eexists. rewrite <- app_assoc. reflexivity.
  - specialize (Hexn e p eq_refl).
    rewrite (exn_class_cases e _ _ Hexn).
    eexists; eexists. unfold search_failed, bind, print, ret. simpl.
    split; [reflexivity|]. simpl. repeat split; try discriminate.
    intros _. exists e, []. reflexivity.
Qed.

Lemma first_answers_empty answers :
  In (Answer []) answers -> exists e, first_answers answers = Raise e.
Proof.
  induction answers as [|a answers IH]; [intros []|].
  intros [->|Hin]; simpl.
  - eexists. reflexivity.
  - destruct (answer a); [eexists; reflexivity|].
    destruct (IH Hin) as [e ->]. eexists. reflexivity.
Qed.

Lemma locate_one_malformed fqdn zr :
  malformed_hit fqdn zr -> exists e, locate_one fqdn zr = Raise e.
Proof.
  intros [t [Ht [Ha Hbad]]]. unfold locate_one. rewrite Ht, Ha.
  destruct Hbad as [Hd | [d [answers [Hd [Hin [Hans Hempty]]]]]].
  - rewrite Hd. eexists. reflexivity.
  - rewrite Hd, Hin, Hans.
    destruct (first_answers_empty answers Hempty) as [e ->].
    eexists. reflexivity.
Qed.

Lemma collect_malformed fqdn results zr :
  In zr results -> malformed_hit fqdn zr ->
  exists e, collect fqdn results = Raise e.
Proof.
  induction results as [|r results IH]; [intros []|].
  intros [->|Hin] Hbad; simpl.
  - destruct (locate_one_malformed fqdn zr Hbad) as [e ->].
    eexists. reflexivity.
  - destruct (locate_one fqdn r); [|eexists; reflexivity].
    destruct (IH Hin Hbad) as [e ->]. eexists. reflexivity.
Qed.

(** One malformed result spoils the whole lookup.  When the provider's
    response holds an A or CNAME result without a domain, or one at the name
    or under it with an empty answer, [search_records] returns [None],
    whatever the other results are, after printing the error and the raw
    response. *)
Theorem malformed_result_fails_lookup fqdn w results p1 zr :
  searchZone fqdn (prov w) = (Ok results, p1) ->
  In zr results ->
  malformed_hit fqdn zr ->
  exists e,
    search_records fqdn w
    = (Ok None,
       World p1
         (out w ++ [search_error_line fqdn e;
                    "Raw JSON response: " ++ repr_results results])
         (calls w ++ [CallSearch fqdn]) (model w)).
Proof.
  intros Hs Hin Hbad.
  destruct (collect_malformed fqdn results zr Hin Hbad) as [e He].
  exists e.
  unfold search_records, api_searchZone, bind, log, provider_op. simpl.
  rewrite Hs, He.
  unfold search_failed, bind, print, ret. simpl.
  now rewrite <- app_assoc.
Qed.

(** *** Computations that only search *)

Lemma read_only_quiet {A} (m : M A) :
  (forall w, calls (snd (m w)) = calls w) -> read_only m.
Proof.
  intros H w. exists []. rewrite H, app_nil_r. split; [reflexivity|].
  constructor.
Qed.

Lemma read_only_ret {A} (a : A) : read_only (ret a).
Proof. now apply read_only_quiet. Qed.

Lemma read_only_raise {A} e : read_only (raise (A:=A) e).
Proof. now apply read_only_quiet. Qed.

Lemma read_only_lift {A} (r : result A) : read_only (lift r).
Proof. now apply read_only_quiet. Qed.

Lemma read_only_print s : read_only (print s).
Proof. now apply read_only_quiet. Qed.

Lemma read_only_model_get k : read_only (model_get k).
Proof. now apply read_only_quiet. Qed.

Lemma read_only_model_items : read_only model_items.
Proof. now apply read_only_quiet. Qed.

Lemma read_only_bind {A B} (m : M A) (k : A -> M B) :
  read_only m -> (forall a, read_only (k a)) -> read_only (bind m k).
Proof.
  intros Hm Hk w. unfold bind.
  destruct (Hm w) as [more1 [Hm1 Hm2]].
  destruct (m w) as [[a|e] w1]; cbn [snd] in *.
  - destruct (Hk a w1) as [more2 [Hk1 Hk2]].
    exists (more1 ++ more2)%list. split.
    + now rewrite Hk1, Hm1, app_assoc.
    + apply Forall_app. now split.
  - exists more1. now split.
Qed.

Lemma read_only_for_each {A} (l : list A) (body : A -> M unit) :
  (forall x, read_only (body x)) -> read_only (for_each l body).
Proof.
  intros Hb. induction l as [|x l IH]; cbn [for_each].
  - apply read_only_ret.
  - apply read_only_bind; auto.
Qed.

Lemma read_only_search_records fqdn : read_only (search_records fqdn).
Proof.
  intros w. exists [CallSearch fqdn].
  split; [|repeat constructor].
  unfold search_records, api_searchZone, bind, log, provider_op. simpl.
  destruct (searchZone fqdn (prov w)) as [[results|e] p].
  - destruct (collect fqdn results); reflexivity.
  - destruct (exn_class e); reflexivity.
Qed.

Lemma read_only_print_located p1 p2 r : read_only (print_located p1 p2 r).
Proof.
  apply read_only_quiet. intros w. now rewrite print_located_run.
Qed.

Create HintDb read_only.

#[local] Hint Resolve read_only_ret read_only_raise read_only_lift
  read_only_print read_only_model_get read_only_model_items
  read_only_search_records read_only_print_located : read_only.

Ltac read_only :=
  repeat first
    [ solve [auto with read_only]
    | apply read_only_bind; [|intros ?]
    | apply read_only_for_each; intros ?
    | match goal with
      | |- read_only (match ?x with _ => _ end) => destruct x
      | |- read_only (if ?b then _ else _) => destruct b
      end ].

Lemma read_only_iterate records : read_only (iterate records).
Proof. unfold iterate. read_only. Qed.

#[local] Hint Resolve read_only_iterate : read_only.

Lemma read_only_check_action fqdn : read_only (check_action fqdn).
Proof. unfold check_action. read_only. Qed.

Lemma read_only_list_detail record : read_only (list_detail record).
Proof. unfold list_detail. read_only. Qed.

#[local] Hint Resolve read_only_check_action read_only_list_detail
  : read_only.

Lemma read_only_listing app site_arg :
  read_only (flip_app_action app site_arg true).
Proof. unfold flip_app_action. read_only. Qed.

(** [check] and the listings never flip anything: whatever the provider
    answers, the only provider calls of [check <fqdn>] and of
    [flip_app -list], with or without [-app] and [-site], are searches; no
    record is loaded and none is updated. *)
Theorem check_and_listing_only_search fqdn app site_arg w :
  (exists more,
     calls (snd (main fs parser_help flip_app_help (Check fqdn) w))
     = (calls w ++ more)%list /\
     Forall (fun c => is_search c = true) more) /\
  (exists more,
     calls (snd (flip_app_action app site_arg true w))
     = (calls w ++ more)%list /\
     Forall (fun c => is_search c = true) more).
Proof.
  split.
  - assert (H : read_only (main fs parser_help flip_app_help (Check fqdn)))
      by (unfold main; read_only).
    exact (H w).
  - exact (read_only_listing app site_arg w).
Qed.

(** *** Computations that do not use the provider *)

Lemma offline_ret {A} (a : A) : offline (ret a).
Proof. intros w. now split. Qed.

Lemma offline_lift {A} (r : result A) : offline (lift r).
Proof. intros w. now split. Qed.

Lemma offline_print s : offline (print s).
Proof. intros w. now split. Qed.

Lemma offline_model_items : offline model_items.
Proof. intros w. now split. Qed.

Lemma offline_bind {A B} (m : M A) (k : A -> M B) :
  offline m -> (forall a, offline (k a)) -> offline (bind m k).
Proof.
  intros Hm Hk w. unfold bind.
  destruct (Hm w) as [Hm1 Hm2].
  destruct (m w) as [[a|e] w1]; cbn [snd] in *.
  - destruct (Hk a w1) as [Hk1 Hk2]. split; congruence.
  - now split.
Qed.

Lemma offline_for_each {A} (l : list A) (body : A -> M unit) :
  (forall x, offline (body x)) -> offline (for_each l body).
Proof.
  intros Hb. induction l as [|x l IH]; cbn [for_each].
  - apply offline_ret.
  - apply offline_bind; auto.
Qed.

(** [flip_app -list] without [-app] works from the file alone: it lists the
    applications and their declared names without a single provider call,
    and leaves the provider as it was. *)
Theorem plain_listing_is_offline app site_arg w :
  truthy app = false ->
  prov (snd (flip_app_action app site_arg true w)) = prov w /\
  calls (snd (flip_app_action app site_arg true w)) = calls w.
Proof.
  intros Happ. unfold flip_app_action. rewrite Happ.
  assert (H : offline
            (bind (print "Available applications:") (fun _ =>
             bind model_items (fun items =>
             for_each items (fun item =>
               bind (print ("  " ++ str_opt (fst item))) (fun _ =>
               for_each (snd item) (fun record =>
                 bind (lift (get_fqdn record)) (fun f =>
                 print ("    FQDN: " ++ fst f))))))))).
  { apply offline_bind; [apply offline_print | intros _].
    apply offline_bind; [apply offline_model_items | intros items].
    apply offline_for_each. intros item.
    apply offline_bind; [apply offline_print | intros _].
    apply offline_for_each. intros record.
    apply offline_bind; [apply offline_lift | intros f].
    apply offline_print. }
  exact (H w).
Qed.

(** *** The batch flip *)

(** A batch flip for an application that is not in the model does nothing
    but say so: one line is printed, no provider call is made, and the
    action ends normally. *)
Theorem unknown_application_no_provider_call app site_arg w :
  cfg_get (Some app) (model w) = None ->
  flip_app_action (Some app) (Some site_arg) false w
  = (Ok tt,
     World (prov w)
       (out w ++ [nl ++ "Application '" ++ app
                  ++ "' not found in the configuration file."])
       (calls w) (model w)).
Proof.
  intros H. unfold flip_app_action, bind, model_contains, cfg_mem, Dict.mem.
  fold cfg_get. rewrite H. reflexivity.
Qed.

Lemma flip_loop_outcomes site_arg records : forall summary w summary' w',
  flip_loop site_arg records summary w = (Ok summary', w') ->
  exists lines,
    summary' = (summary ++ lines)%list /\
    Forall2 (outcome_of site_arg) records lines.
Proof.
  induction records as [|record rest IH]; intros summary w summary' w'.
  - cbn [flip_loop]. unfold ret. intros [= <- _].
    exists []. rewrite app_nil_r. split; [reflexivity | constructor].
  - cbn [flip_loop]. unfold bind at 1. unfold lift at 1.
    destruct (get_fqdn record) as [[fqdn record_type]|e] eqn:Hf;
      [|discriminate].
    unfold bind at 1. unfold lift at 1.
    destruct (get_item (site_key site_arg) record) as [v|e] eqn:Hv;
      [|discriminate].
    unfold bind at 1. unfold print at 1.
    unfold bind at 1.
    destruct (search_records fqdn _) as [[found|e] w1]; [|discriminate].
    unfold bind at 1.
    destruct (iterate found w1) as [[located|e] w2]; [|discriminate].
    destruct (exact_matches fqdn located) as [|first others].
    + intros H. destruct (IH _ _ _ _ H) as [lines [-> Hl]].
      exists (skipped_line fqdn :: lines). split.
      * now rewrite <- app_assoc.
      * constructor; [|exact Hl].
        exists fqdn, record_type, v. auto.
    + unfold bind at 1. unfold lift at 1.
      destruct (split_values v) as [new_values|e]; [|discriminate].
      unfold bind at 1.
      destruct (flip_record _ _ _ _ _ w2) as [[[]|e] w3]; [|discriminate].
      intros H. destruct (IH _ _ _ _ H) as [lines [-> Hl]].
      exists (applied_line fqdn record_type (str_value v) :: lines). split.
      * now rewrite <- app_assoc.
      * constructor; [|exact Hl].
        exists fqdn, record_type, v. auto.
Qed.

(** A batch that runs to its end reports one outcome per declared record,
    in declaration order: the summary the loop returns is the summary it
    started from followed by one line for each record, each the skipped line
    or the applied line of that very record. *)
Theorem completed_batch_one_outcome_per_record
        site_arg records summary w summary' w' :
  flip_loop site_arg records summary w = (Ok summary', w') ->
  exists lines,
    summary' = (summary ++ lines)%list /\
    Forall2 (outcome_of site_arg) records lines /\
    List.length lines = List.length records.
Proof.
  intros H.
  destruct (flip_loop_outcomes site_arg records summary w summary' w' H)
    as [lines [H1 H2]].
  exists lines. repeat split; auto.
  symmetry. exact (Forall2_length H2).
Qed.

(** A record admitted without the key the batch needs stops the batch
    before anything is done for it: when the record has no [fqdn], or has
    one but lacks the value of the requested site, the loop raises
    [KeyError] at that record without printing and without calling the
    provider, and the records after it are not processed. *)
Theorem incomplete_record_stops_batch site_arg record rest summary w :
  (rec_get "fqdn" record = None ->
   flip_loop site_arg (record :: rest) summary w
   = (Raise (Exn KeyError "'fqdn'"), w)) /\
  (forall f, get_fqdn record = Ok f ->
   rec_get (site_key site_arg) record = None ->
   flip_loop site_arg (record :: rest) summary w
   = (Raise (Exn KeyError (PyStr.repr (site_key site_arg))), w)).
Proof.
  split.
  - intros H. cbn [flip_loop]. unfold bind, lift, get_fqdn.
    now rewrite H.
  - intros [fqdn record_type] Hf H. cbn [flip_loop].
    unfold bind, lift, get_item. now rewrite Hf, H.
Qed.

(** *** check *)

(** [check] does not handle a failed lookup: when the provider's search
    fails, [search_records] prints the failure and returns [None], and the
    comprehension over it raises [TypeError]; [main] ends with that
    exception instead of a report. *)
Theorem check_raises_on_failed_lookup fqdn w e p1 :
  searchZone fqdn (prov w) = (Raise e, p1) ->
  exn_class e <> SystemExit ->
  main fs parser_help flip_app_help (Check fqdn) w
  = (Raise not_iterable,
     World p1 (out w ++ [search_error_line fqdn e])
       (calls w ++ [CallSearch fqdn]) (model w)).
Proof.
  intros Hs He. unfold main, check_action.
  unfold bind at 1. unfold ret at 1.
  unfold bind at 1.
  rewrite (search_records_failed fqdn w e p1 Hs He).
  reflexivity.
Qed.

(** *** flip *)

(** The single flip trusts the zone it is given and reports failures
    itself: [main] loads the record in that zone without any search, ends
    normally whether the provider accepts the flip or not, prints nothing
    on success and one line on failure. *)
Theorem single_flip_never_searches fqdn record_type zone new_values w :
  (forall e,
     fst (flip_record fqdn (Some zone) record_type new_values "replace" w)
     = Raise e -> exn_class e <> SystemExit) ->
  fst (main fs parser_help flip_app_help
         (Flip fqdn record_type zone new_values) w) = Ok tt /\
  (exists rest,
     calls (snd (main fs parser_help flip_app_help
                   (Flip fqdn record_type zone new_values) w))
     = (calls w ++ CallLoad fqdn record_type (Some zone) :: rest)%list /\
     (rest = [] \/
      exists h, rest = [CallUpdate h (new_answers new_values)])) /\
  (fst (flip_record fqdn (Some zone) record_type new_values "replace" w)
   = Ok tt ->
   out (snd (main fs parser_help flip_app_help
               (Flip fqdn record_type zone new_values) w)) = out w) /\
  (forall e,
     fst (flip_record fqdn (Some zone) record_type new_values "replace" w)
     = Raise e ->
     out (snd (main fs parser_help flip_app_help
                 (Flip fqdn record_type zone new_values) w))
     = (out w ++ [("An error occurred while flipping the record for "
                   ++ fqdn ++ ": " ++ exn_str e)%string])%list).
Proof.
  intros Hexn. unfold main. unfold bind at 1. unfold ret at 1.
  unfold try_except.
  revert Hexn.
  unfold flip_record, api_loadRecord, record_update, bind, log, provider_op.
  simpl.
  destruct (loadRecord fqdn record_type (Some zone) (prov w))
    as [[h|e] p1]; simpl.
  - destruct (update h (new_answers new_values) p1) as [[[]|e] p2]; simpl.
    + intros _. repeat split; try discriminate.
      exists [CallUpdate h (new_answers new_values)].
      rewrite <- app_assoc. split; [reflexivity|]. right. eauto.
    + intros Hexn. specialize (Hexn e eq_refl).
      rewrite (exn_class_cases e _ _ Hexn). unfold print. simpl.
      repeat split; try discriminate.
      * exists [CallUpdate h (new_answers new_values)].
        rewrite <- app_assoc. split; [reflexivity|]. right. eauto.
      * intros e' [= <-]. reflexivity.
  - intros Hexn. specialize (Hexn e eq_refl).
    rewrite (exn_class_cases e _ _ Hexn). unfold print. simpl.
    repeat split; try discriminate.
    + exists []. split; [reflexivity|]. now left.
    + intros e' [= <-]. reflexivity.
Qed.

(** *** The arguments of flip_app *)

(** [flip_app] without [-file], [-app], [-site] and [-list] exits with
    status 1 after printing a notice and the help; no file is read and the
    provider is not called. *)
Theorem flip_app_without_arguments_exits file app w :
  truthy file = false ->
  truthy app = false ->
  main fs parser_help flip_app_help (FlipApp file app None false) w
  = (Raise (Exn SystemExit "1"),
     World (prov w)
       (out w ++
        ["Please provide additional arguments for the flip_app action"
         ++ " or use the -list option.";
         flip_app_help])
       (calls w) (model w)).
Proof.
  intros Hf Ha. unfold main. rewrite Hf, Ha.
  unfold bind, print, raise. simpl. now rewrite <- app_assoc.
Qed.

(** The file is read before the arguments are checked.  With a file given
    and [-app] or [-site] missing (and no [-list]): a file that cannot be
    opened or parsed makes [main] end with that failure, and only a file
    that parses leads to the message that [-app] and [-site] are required.
    In no case is the provider called. *)
Theorem file_is_read_before_arguments_are_checked path app site_arg w :
  path <> EmptyString ->
  app = None \/ site_arg = None ->
  match fs path with
  | None =>
      exists e,
        main fs parser_help flip_app_help
             (FlipApp (Some path) app site_arg false) w
        = (Raise e, w) /\ exn_class e = OSError
  | Some text =>
      match parse_text text with
      | Raise e =>
          main fs parser_help flip_app_help
               (FlipApp (Some path) app site_arg false) w
          = (Raise e, w)
      | Ok m =>
          main fs parser_help flip_app_help
               (FlipApp (Some path) app site_arg false) w
          = (Ok tt,
             World (prov w)
               (out w ++
                ["Error: -app and -site are required unless -list is "
                 ++ "specified."])
               (calls w) m)
      end
  end.
Proof.
  intros Hpath Hmissing. unfold main.
  assert (Ht : truthy (Some path) = true).
  { unfold truthy. now rewrite (eqb_empty_false path Hpath). }
  rewrite Ht. cbn [negb andb].
  unfold bind at 1. unfold ret at 1.
  unfold parse_flip_config.
  destruct (fs path) as [text|].
  - unfold bind at 1. unfold lift at 1.
    destruct (parse_text text) as [m|e]; [|reflexivity].
    unfold bind at 1. unfold model_assign at 1.
    unfold flip_app_action.
    destruct Hmissing as [-> | ->].
    + reflexivity.
    + destruct app; reflexivity.
  - eexists. split; reflexivity.
Qed.

(** Without [-file] but with anything else on the command line, [flip_app]
    ends with the [TypeError] of [open(None)]: [-list] alone does not list
    anything, and nothing is printed. *)
Theorem flip_app_without_file_raises app site_arg list_flag w :
  truthy app = true \/ site_arg <> None \/ list_flag = true ->
  main fs parser_help flip_app_help (FlipApp None app site_arg list_flag) w
  = (Raise (Exn TypeError
              "expected str, bytes or os.PathLike object, not NoneType"),
     w).
Proof.
  intros H. unfold main.
  assert (Hc : negb (truthy None) && negb (truthy app)
               && negb (is_some site_arg) && negb list_flag = false).
  { destruct H as [-> | [Hs | ->]].
    - reflexivity.
    - destruct site_arg; [|contradiction].
      simpl. now rewrite andb_false_r.
    - now rewrite andb_false_r. }
  rewrite Hc. reflexivity.
Qed.

(** *** A batch in which nothing matches *)



(** *** The listing in detail *)

Lemma search_records_returns fqdn w :
  searches_do_not_exit ->
  exists r w',
    search_records fqdn w = (Ok r, w') /\
    calls w' = (calls w ++ [CallSearch fqdn])%list /\
    model w' = model w.
Proof.
  intros Hexn.
  unfold search_records, api_searchZone, bind, log, provider_op. simpl.
  destruct (searchZone fqdn (prov w)) as [[results|e] p] eqn:Hs.
  - destruct (collect fqdn results) as [records|e].
    + eexists; eexists. split; [reflexivity|]. now split.
    + eexists; eexists. unfold search_failed, bind, print, ret. simpl.
      split; [reflexivity|]. now split.
  - rewrite (exn_class_cases e _ _ (Hexn fqdn (prov w) e p Hs)).
    eexists; eexists. unfold search_failed, bind, print, ret. simpl.
    split; [reflexivity|]. now split.
Qed.

Lemma get_fqdn_has_key r f :
  get_fqdn r = Ok f -> exists d, rec_get "fqdn" r = Some d.
Proof.
  unfold get_fqdn. destruct (rec_get "fqdn" r) as [d|]; [|discriminate].
  intros _. now exists d.
Qed.

Lemma list_detail_completes record w :
  searches_do_not_exit ->
  complete record ->
  exists w',
    list_detail record w = (Ok tt, w') /\
    calls w' = (calls w ++ [CallSearch (declared_fqdn record)])%list /\
    model w' = model w.
Proof.
  intros Hexn [[[fqdn record_type] Hf] [[p Hp] [s Hs]]].
  destruct (get_fqdn_has_key record _ Hf) as [d Hd].
  unfold list_detail, declared_fqdn. rewrite Hf.
  unfold bind at 1. unfold lift at 1. cbn [fst].
  unfold bind at 1. unfold print at 1.
  unfold bind at 1. unfold lift at 1. unfold get_item at 1. rewrite Hp.
  unfold bind at 1. unfold print at 1.
  unfold bind at 1. unfold lift at 1. unfold get_item at 1. rewrite Hs.
  unfold bind at 1. unfold print at 1.
  unfold bind at 1.
  match goal with
  | |- context [search_records fqdn ?w0] =>
      destruct (search_records_returns fqdn w0 Hexn)
        as [r [w1 [H1 [H2 H3]]]]
  end.
  rewrite H1. cbn [calls model] in H2, H3.
  destruct r as [located|].
  - cbv zeta. destruct (exact_matches fqdn located) as [|first others].
    + unfold bind, lift, get_item, print. rewrite Hd.
      eexists. split; [reflexivity|]. now split.
    + rewrite for_each_print_located.
      eexists. split; [reflexivity|]. now split.
  - unfold print. eexists. split; [reflexivity|]. now split.
Qed.

Lemma list_details_complete records : forall w,
  searches_do_not_exit ->
  Forall complete records ->
  exists w',
    for_each records list_detail w = (Ok tt, w') /\
    calls w'
    = (calls w ++ map (fun r => CallSearch (declared_fqdn r)) records)%list /\
    model w' = model w.
Proof.
  induction records as [|record rest IH]; intros w Hexn Hall.
  - exists w. cbn [for_each map]. unfold ret. now rewrite app_nil_r.
  - inversion Hall as [|? ? Hr Hrest]; subst.
    destruct (list_detail_completes record w Hexn Hr) as [w1 [H1 [H2 H3]]].
    destruct (IH w1 Hexn Hrest) as [w2 [H4 [H5 H6]]].
    exists w2. cbn [for_each map]. unfold bind. rewrite H1, H4.
    split; [reflexivity|]. split; [|congruence].
    now rewrite H5, H2, <- app_assoc.
Qed.

(** The listing in detail always gets to the end of the application: for
    records that have their three keys, it searches each declared name once,
    in declaration order, and ends normally whether the lookups succeed or
    fail; a failed lookup is reported for its record and the listing goes
    on. *)
Theorem detailed_listing_completes app site_arg records w :
  app <> EmptyString ->
  searches_do_not_exit ->
  cfg_get (Some app) (model w) = Some records ->
  Forall complete records ->
  exists w',
    flip_app_action (Some app) site_arg true w = (Ok tt, w') /\
    calls w'
    = (calls w ++ map (fun r => CallSearch (declared_fqdn r)) records)%list /\
    model w' = model w.
Proof.
  intros Happ Hexn Hcfg Hall.
  unfold flip_app_action, truthy. rewrite (eqb_empty_false app Happ).
  cbn [negb].
  unfold bind at 1. unfold model_get at 1. rewrite Hcfg.
  unfold bind at 1. unfold print at 1.
  match goal with
  | |- context [for_each records list_detail ?w0] =>
      destruct (list_details_complete records w0 Hexn Hall)
        as [w1 [H1 [H2 H3]]]
  end.
  exists w1. split; [exact H1|]. split; [exact H2 | exact H3].
Qed.

End FurtherOrchestration.

(* ================================================================== *)
(** ** The further properties on concrete inputs *)

(** The locator on a provider whose search fails. *)
Lemma search_records_never_raises_witness :
  exists r w',
    search_records (P:=Fake.provider) "app.example.com"
      (World (P:=Fake.provider) Fake.search_outage [] [] [])
    = (Ok r, w') /\
    calls w' = [CallSearch "app.example.com"].
Proof.
  destruct (@search_records_never_raises Fake.provider "app.example.com"
              (World (P:=Fake.provider) Fake.search_outage [] [] []))
    as [r [w' [H1 [H2 _]]]].
  - intros e p H. vm_compute in H. injection H as <- _. discriminate.
  - exists r, w'. split; [exact H1 | exact H2].
Defined.

(** The locator on a response whose A record has an empty answer. *)
Lemma malformed_result_fails_lookup_witness :
  exists e,
    search_records (P:=Fake.provider) "app.example.com"
      (World (P:=Fake.provider)
         (Fake.State
            [Fake.Dns "www.app.example.com" "example.com" "CNAME"
               [Answer ["app.example.com"]];
             Fake.Dns "app.example.com" "example.com" "A" [Answer []]]
            [] []) [] [] [])
    = (Ok None,
       World (P:=Fake.provider)
         (Fake.State
            [Fake.Dns "www.app.example.com" "example.com" "CNAME"
               [Answer ["app.example.com"]];
             Fake.Dns "app.example.com" "example.com" "A" [Answer []]]
            [] [])
         [search_error_line "app.example.com" e;
          "Raw JSON response: <raw response>"]
         [CallSearch "app.example.com"] []).
Proof.
  apply (@malformed_result_fails_lookup Fake.provider "app.example.com"
           (World (P:=Fake.provider)
              (Fake.State
                 [Fake.Dns "www.app.example.com" "example.com" "CNAME"
                    [Answer ["app.example.com"]];
                  Fake.Dns "app.example.com" "example.com" "A" [Answer []]]
                 [] []) [] [] [])
           (map Fake.to_result
              [Fake.Dns "www.app.example.com" "example.com" "CNAME"
                 [Answer ["app.example.com"]];
               Fake.Dns "app.example.com" "example.com" "A" [Answer []]])
           (Fake.State
              [Fake.Dns "www.app.example.com" "example.com" "CNAME"
                 [Answer ["app.example.com"]];
               Fake.Dns "app.example.com" "example.com" "A" [Answer []]]
              [] [])
           (ZoneResult (Some "A") (Some "app.example.com")
              (Some "example.com") (Some [Answer []]))).
  - reflexivity.
  - right. left. reflexivity.
  - exists "A". split; [reflexivity|]. split; [reflexivity|].
    right. exists "app.example.com", [Answer []].
    repeat split; try reflexivity. left. reflexivity.
Defined.

(** The plain listing of the sample model. *)
Lemma plain_listing_is_offline_witness :
  prov (snd (Fake.run_flip_app Fake.ghost_model Fake.healthy
               None None true)) = Fake.healthy /\
  calls (snd (Fake.run_flip_app Fake.ghost_model Fake.healthy
                None None true)) = [].
Proof.
  exact (@plain_listing_is_offline Fake.provider None None
           (World (P:=Fake.provider) Fake.healthy [] [] Fake.ghost_model)
           eq_refl).
Defined.

(** A batch flip for a name the sample model does not have. *)
Lemma unknown_application_no_provider_call_witness :
  Fake.run_flip_app Fake.ghost_model Fake.healthy
    (Some "nosuch") (Some secondary) false
  = (Ok tt,
     World (P:=Fake.provider) Fake.healthy
       [nl ++ "Application 'nosuch' not found in the configuration file."]
       [] Fake.ghost_model).
Proof.
  exact (@unknown_application_no_provider_call Fake.provider
           "nosuch" secondary
           (World (P:=Fake.provider) Fake.healthy [] [] Fake.ghost_model)
           eq_refl).
Defined.

(** The loop over the two records of the sample model: two outcomes. *)
Lemma completed_batch_one_outcome_per_record_witness :
  exists lines,
    [skipped_line "ghost.example.com";
     applied_line "app.example.com" "A" "1.2.3.4,5.6.7.8"]
    = ([] ++ lines)%list /\
    Forall2 (outcome_of primary) [Fake.ghost_record; Fake.app_record] lines /\
    List.length lines = 2.
Proof.
  apply (@completed_batch_one_outcome_per_record Fake.provider primary
           [Fake.ghost_record; Fake.app_record] []
           (World (P:=Fake.provider) Fake.healthy [] [] [])
           [skipped_line "ghost.example.com";
            applied_line "app.example.com" "A" "1.2.3.4,5.6.7.8"]
           (snd (flip_loop (P:=Fake.provider) primary
                   [Fake.ghost_record; Fake.app_record] []
                   (World (P:=Fake.provider) Fake.healthy [] [] [])))).
  vm_compute. reflexivity.
Defined.

(** The record of the file [[app] / secondary: 2.2.2.2], which has no
    [fqdn]: the batch raises at once. *)
Lemma incomplete_record_stops_batch_witness :
  flip_loop (P:=Fake.provider) secondary
    [[("secondary", VStr "2.2.2.2")]; Fake.app_record] []
    (World (P:=Fake.provider) Fake.healthy [] [] [])
  = (Raise (Exn KeyError "'fqdn'"),
     World (P:=Fake.provider) Fake.healthy [] [] []).
Proof.
  exact (proj1 (@incomplete_record_stops_batch Fake.provider secondary
                  [("secondary", VStr "2.2.2.2")] [Fake.app_record] []
                  (World (P:=Fake.provider) Fake.healthy [] [] []))
           eq_refl).
Defined.

(** [check] when the search fails. *)
Lemma check_raises_on_failed_lookup_witness :
  main (P:=Fake.provider) (fun _ => None) "usage" "usage: flip_app"
       (Check "app.example.com")
       (World (P:=Fake.provider) Fake.search_outage [] [] [])
  = (Raise not_iterable,
     World (P:=Fake.provider) Fake.search_outage
       [search_error_line "app.example.com"
          (Exn ProviderError "search failed")]
       [CallSearch "app.example.com"] []).
Proof.
  apply (@check_raises_on_failed_lookup Fake.provider (fun _ => None)
           "usage" "usage: flip_app" "app.example.com"
           (World (P:=Fake.provider) Fake.search_outage [] [] [])
           (Exn ProviderError "search failed") Fake.search_outage).
  - reflexivity.
  - discriminate.
Defined.

(** The single flip of [app.example.com] on the sample provider. *)
Lemma single_flip_never_searches_witness :
  fst (main (P:=Fake.provider) (fun _ => None) "usage" "usage: flip_app"
         (Flip "app.example.com" "A" "example.com" ["1.2.3.4"])
         (World (P:=Fake.provider) Fake.healthy [] [] [])) = Ok tt.
Proof.
  apply (@single_flip_never_searches Fake.provider (fun _ => None)
           "usage" "usage: flip_app"
           "app.example.com" "A" "example.com" ["1.2.3.4"]
           (World (P:=Fake.provider) Fake.healthy [] [] [])).
  intros e H. vm_compute in H. discriminate H.
Defined.

(** [flip_app] with nothing else on the command line. *)
Lemma flip_app_without_arguments_exits_witness :
  main (P:=Fake.provider) (fun _ => None) "usage" "usage: flip_app"
       (FlipApp None None None false)
       (World (P:=Fake.provider) Fake.healthy [] [] [])
  = (Raise (Exn SystemExit "1"),
     World (P:=Fake.provider) Fake.healthy
       ["Please provide additional arguments for the flip_app action"
        ++ " or use the -list option."; "usage: flip_app"] [] []).
Proof.
  exact (@flip_app_without_arguments_exits Fake.provider (fun _ => None)
           "usage" "usage: flip_app" None None
           (World (P:=Fake.provider) Fake.healthy [] [] [])
           eq_refl eq_refl).
Defined.

(** [flip_app -file flips.txt -app web] without [-site], on a file whose
    [fqdn:] line has no record type: the parse failure comes first. *)
Lemma file_is_read_before_arguments_are_checked_witness :
  main (P:=Fake.provider)
       (Fake.one_file "flips.txt" "[web]
fqdn: app.example.com
") "usage" "usage: flip_app"
       (FlipApp (Some "flips.txt") (Some "web") None false)
       (World (P:=Fake.provider) Fake.healthy [] [] [])
  = (Raise (unpack_error 1),
     World (P:=Fake.provider) Fake.healthy [] [] []).
Proof.
  refine (@file_is_read_before_arguments_are_checked Fake.provider
            (Fake.one_file "flips.txt" "[web]
fqdn: app.example.com
") "usage" "usage: flip_app" "flips.txt" (Some "web") None
            (World (P:=Fake.provider) Fake.healthy [] [] []) _ _).
  - discriminate.
  - right. reflexivity.
Defined.

(** [flip_app -list] without [-file]. *)
Lemma flip_app_without_file_raises_witness :
  main (P:=Fake.provider) (fun _ => None) "usage" "usage: flip_app"
       (FlipApp None None None true)
       (World (P:=Fake.provider) Fake.healthy [] [] [])
  = (Raise (Exn TypeError
              "expected str, bytes or os.PathLike object, not NoneType"),
     World (P:=Fake.provider) Fake.healthy [] [] []).
Proof.
  apply (@flip_app_without_file_raises Fake.provider (fun _ => None)
           "usage" "usage: flip_app" None None true
           (World (P:=Fake.provider) Fake.healthy [] [] [])).
  right. right. reflexivity.
Defined.


Lemma fake_searches_do_not_exit : searches_do_not_exit (P:=Fake.provider).
Proof.
  intros fqdn p e p'. cbn [searchZone Fake.provider]. unfold Fake.search.
  destruct (Fake.mem_string fqdn (Fake.search_down p)).
  - intros [= <- _]. discriminate.
  - discriminate.
Defined.

(** The listing in detail of the sample model while the search for
    [app.example.com] fails: both records are looked up. *)
Lemma detailed_listing_completes_witness :
  exists w',
    Fake.run_flip_app Fake.ghost_model Fake.search_outage
      (Some "web") None true = (Ok tt, w') /\
    calls w'
    = [CallSearch "ghost.example.com"; CallSearch "app.example.com"].
Proof.
  destruct (@detailed_listing_completes Fake.provider "web" None
              [Fake.ghost_record; Fake.app_record]
              (World (P:=Fake.provider) Fake.search_outage [] []
                 Fake.ghost_model))
    as [w' [H1 [H2 _]]].
  - discriminate.
  - exact fake_searches_do_not_exit.
  - reflexivity.
  - repeat constructor; eexists; reflexivity.
  - exists w'. split; [exact H1 | exact H2].
Defined.

(* ================================================================== *)
(** ** Reopening an application *)

Lemma rec_mem_get k r :
  rec_mem k r = false <-> rec_get k r = None.
Proof.
  unfold rec_mem, Dict.mem. fold rec_get.
  destruct (rec_get k r); split; congruence.
Qed.

(** The three lines of a declaration, read with any record in progress that
    is not yet sealed: the record appended to the current application
    declares what the lines say, and no record is in progress afterwards. *)
Lemma parse_declared_record a r0 c d rest :
  well_formed d ->
  rec_mem "secondary" r0 = false ->
  exists r,
    parse_from (ParserState a r0 c)
      (map (fun l => l ++ nl)%string (render_record d) ++ rest)%list
    = parse_from (ParserState a [] (cfg_append a r c)) rest /\
    declares d r.
Proof.
  intros [Hf [Ht [Hp Hs]]] Hr0.
  destruct (fqdn_line_read _ _ Hf Ht) as [Hc1 Hs1].
  destruct (key_value_line_read "primary" _ (or_introl eq_refl) Hp)
    as [Hc2 Hs2].
  destruct (key_value_line_read "secondary" _ (or_intror eq_refl) Hs)
    as [Hc3 Hs3].
  change ("primary" ++ ": " ++ decl_primary d)%string
    with ("primary: " ++ decl_primary d)%string in Hc2, Hs2.
  change ("secondary" ++ ": " ++ decl_secondary d)%string
    with ("secondary: " ++ decl_secondary d)%string in Hc3, Hs3.
  apply rec_mem_get in Hr0.
  set (r1 := rec_set "fqdn" (VPair (decl_fqdn d) (decl_type d)) r0).
  set (r2 := rec_set "primary" (VStr (decl_primary d)) r1).
  set (r3 := rec_set "secondary" (VStr (decl_secondary d)) r2).
  assert (Hm2 : rec_mem "secondary" r2 = false).
  { apply rec_mem_get. unfold r2, r1.
    rewrite rec_get_set_other by discriminate.
    rewrite rec_get_set_other by discriminate. exact Hr0. }
  assert (Hm3 : rec_mem "secondary" r3 = true).
  { unfold rec_mem, Dict.mem. fold rec_get. unfold r3.
    now rewrite rec_get_set_same. }
  exists r3. split.
  - unfold render_record. cbn [map List.app parse_from].
    rewrite parse_line_terminated, parse_line_classify, Hc1, Hs1.
    cbn [current_application current_record flip_config].
    rewrite parse_line_terminated, parse_line_classify, Hc2, Hs2.
    cbn [current_application current_record flip_config]. cbv zeta.
    fold r1. fold r2. rewrite Hm2.
    rewrite parse_line_terminated, parse_line_classify, Hc3, Hs3.
    cbn [current_application current_record flip_config]. cbv zeta.
    fold r3. rewrite Hm3. reflexivity.
  - unfold declares, r3, r2, r1. repeat split.
    + rewrite rec_get_set_other by discriminate.
      rewrite rec_get_set_other by discriminate.
      apply rec_get_set_same.
    + rewrite rec_get_set_other by discriminate.
      apply rec_get_set_same.
    + apply rec_get_set_same.
Qed.

Lemma records_of_cfg_append a r c :
  records_of a (cfg_append a r c) = (records_of a c ++ [r])%list.
Proof. unfold cfg_append. apply records_of_append. Qed.

(** A block of declarations appends to the list of the current application
    one record per declaration, in order, each declaring what its lines
    say. *)
Lemma parse_declared_block ds : forall a r0 c rest,
  Forall well_formed ds ->
  rec_mem "secondary" r0 = false ->
  exists R r' c',
    parse_from (ParserState a r0 c) (block_lines ds ++ rest)%list
    = parse_from (ParserState a r' c') rest /\
    rec_mem "secondary" r' = false /\
    records_of a c' = (records_of a c ++ R)%list /\
    Forall2 declares ds R.
Proof.
  induction ds as [|d ds IH]; intros a r0 c rest Hw Hr0.
  - exists [], r0, c. cbn. rewrite app_nil_r. repeat split; auto.
  - inversion Hw as [|? ? Hd Hds]; subst.
    unfold block_lines. cbn [flat_map]. rewrite map_app, <- app_assoc.
    destruct (parse_declared_record a r0 c d
                (map (fun l => l ++ nl)%string (flat_map render_record ds)
                 ++ rest)%list Hd Hr0) as [r [Hp Hdecl]].
    destruct (IH a [] (cfg_append a r c) rest Hds eq_refl)
      as [R [r' [c' [Hp' [Hr' [Hrec HR]]]]]].
    exists (r :: R), r', c'. split.
    + rewrite Hp. exact Hp'.
    + split; [exact Hr'|]. split.
      * rewrite Hrec, records_of_cfg_append, <- app_assoc. reflexivity.
      * constructor; assumption.
Qed.

(** A header followed by a block of declarations, from a state the parser
    can be in. *)
Lemma parse_header_declared_block st h a ds st' :
  parser_inv st ->
  header_name h = Some a ->
  Forall well_formed ds ->
  parse_from st (h :: block_lines ds) = Ok st' ->
  exists R,
    records_of (Some a) (flip_config st')
    = (records_of (Some a) (flip_config st) ++ R)%list /\
    Forall2 declares ds R.
Proof.
  intros [Hrec _] Hh Hw H.
  apply parse_from_cons_ok in H. destruct H as [s1 [H1 H2]].
  rewrite (parse_line_header st h a Hh) in H1. injection H1 as <-.
  destruct (parse_declared_block ds (Some a) (current_record st)
              (flip_config st) [] Hw Hrec)
    as [R [r' [c' [Hp [_ [Hr HR]]]]]].
  rewrite app_nil_r in Hp. rewrite Hp in H2. cbn [parse_from] in H2.
  injection H2 as <-. exists R. split; [exact Hr | exact HR].
Qed.

(** C8.  In a file where the header of an application [a] appears twice,
    each time followed by a block of record declarations in the documented
    format, the parsed model has a single entry for [a] (its keys are
    pairwise distinct), and the record list of [a] holds, in file order:
    what it held before the first header, one record per declaration of the
    first block, each with the declared fqdn, type, primary and secondary
    values, what the lines in between added, one such record per
    declaration of the second block, and what the rest of the file added.
    The list the application has when its header comes again is kept: the
    second block appends to it and does not replace it. *)
Theorem reopened_application_appends F0 h1 ds1 F1 h2 ds2 F2 a m :
  header_name h1 = Some a ->
  header_name h2 = Some a ->
  Forall well_formed ds1 ->
  Forall well_formed ds2 ->
  parse_lines (F0 ++ h1 :: block_lines ds1 ++ F1
                  ++ h2 :: block_lines ds2 ++ F2) = Ok m ->
  NoDup (Dict.keys m) /\
  exists st0 st1 R1 between R2 rest,
    parse_from initial_state F0 = Ok st0 /\
    parse_from initial_state (F0 ++ h1 :: block_lines ds1 ++ F1) = Ok st1 /\
    records_of (Some a) (flip_config st1)
    = (records_of (Some a) (flip_config st0) ++ R1 ++ between)%list /\
    records_of (Some a) m
    = (records_of (Some a) (flip_config st1) ++ R2 ++ rest)%list /\
    Forall2 declares ds1 R1 /\
    Forall2 declares ds2 R2.
Proof.
  intros Hh1 Hh2 Hw1 Hw2. unfold parse_lines.
  destruct (parse_from initial_state _) as [st|e] eqn:E; [|discriminate].
  intros [= <-]. split.
  { eapply parse_from_NoDup; [|exact E]. constructor. }
  assert (Hinit : parser_inv initial_state)
    by (split; [reflexivity | constructor]).
  apply parse_from_app_ok in E. destruct E as [st0 [E0 E]].
  change (h1 :: block_lines ds1 ++ F1 ++ h2 :: block_lines ds2 ++ F2)%list
    with ((h1 :: block_lines ds1) ++ F1
          ++ (h2 :: block_lines ds2) ++ F2)%list in E.
  apply parse_from_app_ok in E. destruct E as [sa [Ea E]].
  apply parse_from_app_ok in E. destruct E as [st1 [E1 E]].
  apply parse_from_app_ok in E. destruct E as [sb [Eb E2]].
  assert (Hprefix : parse_from initial_state
                      (F0 ++ h1 :: block_lines ds1 ++ F1) = Ok st1).
  { rewrite parse_from_app, E0.
    change (h1 :: block_lines ds1 ++ F1)%list
      with ((h1 :: block_lines ds1) ++ F1)%list.
    now rewrite parse_from_app, Ea. }
  pose proof (parse_from_inv F0 initial_state st0 Hinit E0) as Hinv0.
  pose proof (parse_from_inv _ initial_state st1 Hinit Hprefix) as Hinv1.
  destruct (parse_header_declared_block st0 h1 a ds1 sa Hinv0 Hh1 Hw1 Ea)
    as [R1 [HR1 Hd1]].
  destruct (parse_header_declared_block st1 h2 a ds2 sb Hinv1 Hh2 Hw2 Eb)
    as [R2 [HR2 Hd2]].
  destruct (parse_from_grows _ _ _ (Some a) E1) as [between Hbetween].
  destruct (parse_from_grows _ _ _ (Some a) E2) as [rest Hrest].
  exists st0, st1, R1, between, R2, rest.
  split; [exact E0|]. split; [exact Hprefix|]. split.
  - rewrite Hbetween, HR1. now rewrite <- app_assoc.
  - split; [|split; [exact Hd1 | exact Hd2]].
    rewrite Hrest, HR2. now rewrite <- app_assoc.
Qed.

(** The theorem at a file that opens [web], then [db], then [web] again,
    with one declaration under each header: the model has one entry for
    [web], whose list holds the record of the first block and then the
    record of the second. *)
Lemma reopened_application_appends_witness :
  NoDup (Dict.keys reopened_model) /\
  exists st0 st1 R1 between R2 rest,
    parse_from initial_state [] = Ok st0 /\
    parse_from initial_state
      ([] ++ "[web]" :: block_lines [web_first]
          ++ "[db]" :: block_lines [db_only])%list = Ok st1 /\
    records_of (Some "web") (flip_config st1)
    = (records_of (Some "web") (flip_config st0) ++ R1 ++ between)%list /\
    records_of (Some "web") reopened_model
    = (records_of (Some "web") (flip_config st1) ++ R2 ++ rest)%list /\
    Forall2 declares [web_first] R1 /\
    Forall2 declares [web_second] R2.
Proof.
  apply (reopened_application_appends
           [] "[web]" [web_first] ("[db]" :: block_lines [db_only])
           "[web]" [web_second] [] "web" reopened_model).
  - reflexivity.
  - reflexivity.
  - repeat constructor; simpl; try discriminate; reflexivity.
  - repeat constructor; simpl; try discriminate; reflexivity.
  - vm_compute. reflexivity.
Defined.

(** What the theorem gives at that file, spelled out: the list of [web] is
    the record of its first block followed by the record of its second. *)
Example reopened_application_records :
  parse_lines ("[web]" :: block_lines [web_first]
               ++ "[db]" :: block_lines [db_only]
               ++ "[web]" :: block_lines [web_second])%list
  = Ok reopened_model /\
  records_of (Some "web") reopened_model
  = [to_record web_first; to_record web_second].
Proof. split; vm_compute; reflexivity. Qed.
